(** * gora: external variables for rule compilation and scanning

    A shallow embedding of the Go packages [gora/variables]
    (variables/variables.go) and [gora] (gora.go), followed by the
    properties of the registry, the selector, the value resolver and
    the compile entry points. *)

From Stdlib Require Import ZArith NArith String Ascii List Bool Lia.
From Stdlib Require Import SpecFloat.
From stdpp Require Import base gmap sets list strings pretty.

#[local] Set Warnings "-clear-no-such-hyp".

Local Open Scope string_scope.
Local Open Scope N_scope.

(** ** Go values shared by both packages *)

(** [interface{}] values that reach a [VariableDefiner]: bool, int64,
    float64 and string.  The nil interface is [None] of [option value]. *)
Inductive value : Type :=
  | VBool (b : bool)
  | VInt64 (n : Z)
  | VFloat64 (f : spec_float)
  | VString (s : string).

(** Identifiers and metadata are Go bytes; they are only compared, indexed
    and and-ed, so [N] carries them without wrap-around. *)
Definition VariableType : Type := N.
Definition MetaType : Type := N.

(** Go [error] values.  The nil error is [None] of [option error]. *)
Inductive error : Type :=
  | ErrorsNew (msg : string)                 (* errors.New(msg), and collaborators' errors *)
  | ErrUnknownVariable (vid : VariableType)  (* fmt.Errorf("unknown variable: %[1]s(%[1]d)", vid) *)
  | ErrWrap (msg : string) (e : error)       (* fmt.Errorf(msg + ": %w", e) *)
  | ErrJoin (err e : error)                  (* fmt.Errorf("%s: %w", err, e) *)
  | ErrMore (e : error) (more : string).     (* fmt.Errorf("%w more: %s", e, more) *)

(** A Go call either returns or panics. *)
Inductive outcome (A : Type) : Type :=
  | Ret (a : A)
  | Panic.
Arguments Ret {A} a.
Arguments Panic {A}.

(** int64(x): two's complement wrap to 64 bits. *)
Definition int64 (x : Z) : Z :=
  ((x + 2 ^ 63) mod 2 ^ 64 - 2 ^ 63)%Z.

(** ** Package strings (the functions the sources call) *)
Module strings.

Fixpoint HasPrefix (s prefix : string) : bool :=
  match prefix, s with
  | EmptyString, _ => true
  | String c p, String d s' => if Ascii.eqb c d then HasPrefix s' p else false
  | String _ _, EmptyString => false
  end.

(** strings.Count(s, sep) for a one-byte separator. *)
Fixpoint CountByte (s : string) (c : ascii) : nat :=
  match s with
  | EmptyString => O
  | String d s' => ((if Ascii.eqb c d then 1 else 0) + CountByte s' c)%nat
  end.

Fixpoint drop (n : nat) (s : string) : string :=
  match n, s with
  | O, _ => s
  | S n', String _ s' => drop n' s'
  | S _, EmptyString => EmptyString
  end.

Definition TrimPrefix (s prefix : string) : string :=
  if HasPrefix s prefix then drop (String.length prefix) s else s.

End strings.

(** ** Package path/filepath, Unix flavour (Separator = '/') *)
Module filepath.

Definition Separator : ascii := "/"%char.
Definition IsPathSeparator (c : ascii) : bool := Ascii.eqb c Separator.

(** Splits at every separator: "a//b" gives ["a"; ""; "b"]. *)
Fixpoint elements (s : string) : list string :=
  match s with
  | EmptyString => [EmptyString]
  | String c s' =>
      if IsPathSeparator c then EmptyString :: elements s'
      else match elements s' with
           | e :: es => String c e :: es
           | [] => [String c EmptyString]
           end
  end.

Fixpoint join (es : list string) : string :=
  match es with
  | [] => EmptyString
  | [e] => e
  | e :: es' => e ++ String Separator (join es')
  end.

(** The element stack of Clean, most recent element first.  ".."
    removes the last real element; at the root it is dropped; in a
    relative path with nothing left to remove it is kept. *)
Fixpoint clean_elements (rooted : bool) (es : list string) (out : list string) : list string :=
  match es with
  | [] => out
  | e :: es' =>
      if String.eqb e "" then clean_elements rooted es' out
      else if String.eqb e "." then clean_elements rooted es' out
      else if String.eqb e ".." then
        match out with
        | o :: out' =>
            if String.eqb o ".." then clean_elements rooted es' (e :: out)
            else clean_elements rooted es' out'
        | [] => if rooted then clean_elements rooted es' out
                else clean_elements rooted es' [e]
        end
      else clean_elements rooted es' (e :: out)
  end.

(** filepath.Clean: the shortest path equivalent to [path] by purely
    lexical processing; the empty path becomes ".". *)
Definition Clean (path : string) : string :=
  match path with
  | EmptyString => "."
  | String c _ =>
      let rooted := IsPathSeparator c in
      let body := join (rev (clean_elements rooted (elements path) [])) in
      if rooted then String Separator body
      else if String.eqb body "" then "." else body
  end.

(** filepath.Ext: the suffix beginning at the final dot in the final
    element of [path]; empty if there is no dot. *)
Fixpoint Ext (path : string) : string :=
  match path with
  | EmptyString => EmptyString
  | String c s' =>
      let r := Ext s' in
      if negb (String.eqb r "") then r
      else if existsb IsPathSeparator (list_ascii_of_string s') then EmptyString
      else if Ascii.eqb c "."%char then path
      else EmptyString
  end.

Fixpoint strip_trailing (es : list string) : list string :=
  match es with
  | [] => []
  | e :: es' =>
      match strip_trailing es' with
      | [] => if String.eqb e "" then [] else [e]
      | r => e :: r
      end
  end.

(** filepath.Base: the last element of [path], trailing separators
    removed first; "." for the empty path, "/" for a path of
    separators only. *)
Definition Base (path : string) : string :=
  match path with
  | EmptyString => "."
  | _ => match rev (strip_trailing (elements path)) with
         | [] => String Separator EmptyString
         | e :: _ => e
         end
  end.

(** filepath.Join of two elements: empty elements are ignored and the
    result is cleaned; all empty gives "". *)
Definition Join (a b : string) : string :=
  if String.eqb a "" then (if String.eqb b "" then "" else Clean b)
  else if String.eqb b "" then Clean a
  else Clean (a ++ String Separator b).

End filepath.

(** ** Package variables (variables/variables.go) *)
Module variables.

(** *** Variable types and metadata *)

Definition VarOs : VariableType := 1.
Definition VarOsLinux : VariableType := 2.
Definition VarOsWindows : VariableType := 3.
Definition VarOsDarwin : VariableType := 4.
Definition VarTimeNow : VariableType := 5.
Definition VarFilePath : VariableType := 6.
Definition VarFileName : VariableType := 7.
Definition VarFileExtension : VariableType := 8.
Definition VarFileReadonly : VariableType := 9.
Definition VarFileHidden : VariableType := 10.
Definition VarFileSystem : VariableType := 11.
Definition VarFileCompressed : VariableType := 12.
Definition VarFileEncrypted : VariableType := 13.
Definition VarFileModifiedTime : VariableType := 14.
Definition VarFileAccessedTime : VariableType := 15.
Definition VarFileChangedTime : VariableType := 16.
Definition VarFileBirthTime : VariableType := 17.
Definition VarProcessId : VariableType := 18.
Definition VarProcessParentId : VariableType := 19.
Definition VarProcessUserName : VariableType := 20.
Definition VarProcessUserSid : VariableType := 21.
Definition VarProcessSessionId : VariableType := 22.
Definition VarProcessName : VariableType := 23.
Definition VarProcessPath : VariableType := 24.
Definition VarProcessCommandLine : VariableType := 25.
Definition typeEnd : VariableType := 26.

Definition MetaBool : MetaType := 1.
Definition MetaInt : MetaType := 2.
Definition MetaFloat : MetaType := 4.
Definition MetaString : MetaType := 8.
Definition MetaFile : MetaType := 16.
Definition MetaProcess : MetaType := 32.
Definition MetaFileProcess : MetaType := N.lor MetaFile MetaProcess.

(** The [typeEnd]-sized arrays, index 0 holding the zero value. *)
Definition varNames : list string :=
  [ ""; "os"; "os_linux"; "os_windows"; "os_darwin"; "time_now";
    "file_path"; "file_name"; "file_extension"; "file_readonly";
    "file_hidden"; "file_system"; "file_compressed"; "file_encrypted";
    "file_modified_time"; "file_accessed_time"; "file_changed_time";
    "file_birth_time"; "process_id"; "process_parent_id";
    "process_user_name"; "process_user_sid"; "process_session_id";
    "process_name"; "process_path"; "process_command_line" ].

Definition varMetas : list MetaType :=
  [ 0;
    N.lor MetaFileProcess MetaString;  (* VarOs *)
    N.lor MetaFileProcess MetaBool;    (* VarOsLinux *)
    N.lor MetaFileProcess MetaBool;    (* VarOsWindows *)
    N.lor MetaFileProcess MetaBool;    (* VarOsDarwin *)
    N.lor MetaFileProcess MetaInt;     (* VarTimeNow *)
    N.lor MetaFileProcess MetaString;  (* VarFilePath *)
    N.lor MetaFileProcess MetaString;  (* VarFileName *)
    N.lor MetaFileProcess MetaString;  (* VarFileExtension *)
    N.lor MetaFileProcess MetaBool;    (* VarFileReadonly *)
    N.lor MetaFileProcess MetaBool;    (* VarFileHidden *)
    N.lor MetaFileProcess MetaBool;    (* VarFileSystem *)
    N.lor MetaFileProcess MetaBool;    (* VarFileCompressed *)
    N.lor MetaFileProcess MetaBool;    (* VarFileEncrypted *)
    N.lor MetaFileProcess MetaInt;     (* VarFileModifiedTime *)
    N.lor MetaFileProcess MetaInt;     (* VarFileAccessedTime *)
    N.lor MetaFileProcess MetaInt;     (* VarFileChangedTime *)
    N.lor MetaFileProcess MetaInt;     (* VarFileBirthTime *)
    N.lor MetaProcess MetaInt;         (* VarProcessId *)
    N.lor MetaProcess MetaInt;         (* VarProcessParentId *)
    N.lor MetaProcess MetaString;      (* VarProcessUserName *)
    N.lor MetaProcess MetaString;      (* VarProcessUserSid *)
    N.lor MetaProcess MetaInt;         (* VarProcessSessionId *)
    N.lor MetaProcess MetaString;      (* VarProcessName *)
    N.lor MetaProcess MetaString;      (* VarProcessPath *)
    N.lor MetaProcess MetaString ].    (* VarProcessCommandLine *)

(** VariableType(v) for a Go int: truncation to a byte. *)
Definition VariableType_of_int (v : Z) : VariableType := Z.to_N (v mod 256).

(** [range] over a slice: its indices 0 .. len-1, as Go ints. *)
Definition range_indices {A : Type} (s : list A) : list Z :=
  map Z.of_nat (seq 0 (length s)).

(** List: loops over the indices of the slice [varNames[1:]]. *)
Definition List : list VariableType :=
  fold_left (fun list v => (list ++ [VariableType_of_int v])%list)
            (range_indices (drop 1 varNames)) [].

(** String: the name, or "" outside the table. *)
Definition String_ (v : VariableType) : string :=
  if v <? typeEnd then nth (N.to_nat v) varNames "" else "".

(** Meta: the metadata, or 0 outside the table. *)
Definition Meta (v : VariableType) : MetaType :=
  if v <? typeEnd then nth (N.to_nat v) varMetas 0 else 0.

(** *** The selector *)

Record Variables_ : Type := { list_ : list VariableType }.

(** The loop of setVariables: [acc] is vr.list, [vmap] the set of
    identifiers already appended. *)
Fixpoint setVariables_loop (vars : list VariableType) (metaMask : MetaType)
    (acc : list VariableType) (vmap : gset VariableType) : list VariableType :=
  match vars with
  | [] => acc
  | vid :: vars' =>
      if decide (vid ∈ vmap) then setVariables_loop vars' metaMask acc vmap
      else if negb (N.land (Meta vid) metaMask =? 0)
      then setVariables_loop vars' metaMask (acc ++ [vid])%list ({[ vid ]} ∪ vmap)
      else setVariables_loop vars' metaMask acc vmap
  end.

Definition setVariables (vr : Variables_) (vars : list VariableType)
    (metaMask : MetaType) : Variables_ :=
  {| list_ := setVariables_loop vars metaMask [] ∅ |}.

Definition InitFileVariables (vr : Variables_) (vars : list VariableType) : Variables_ :=
  setVariables vr vars MetaFile.

Definition InitProcessVariables (vr : Variables_) (vars : list VariableType) : Variables_ :=
  setVariables vr vars MetaProcess.

(** *** Collaborators *)

Section Collaborators.
(** time.Time and context.Context stay abstract. *)
Context {Time GoContext : Type}.

(** times.Timespec of a file. *)
Record Timespec : Type := {
  AccessTime : Time;
  HasChangeTime : bool;
  ChangeTime : Time;
  HasBirthTime : bool;
  BirthTime : Time }.

(** fs.FileInfo: the mode bits, the modification time, and the
    platform times that times.Get reads out of it. *)
Record FileInfo_ : Type := {
  Mode : Z;
  ModTime : Time;
  times_Get : Timespec }.

(** fs.FileMode.Perm: the permission bits. *)
Definition Perm (m : Z) : Z := Z.land m 511.

(** The ProcessInfo interface: what each method returns. *)
Record ProcessInfo_ : Type := {
  Ppid : Z * option error;
  Username : string * option error;
  NameWithContext : GoContext -> string * option error;
  CmdlineWithContext : GoContext -> string * option error }.

(** The reading side of the ScanContext interface; a nil FileInfo or
    ProcessInfo is [None]. *)
Record ScanInfo : Type := {
  Context_ : GoContext;
  FilePath : string;
  FileInfo : option FileInfo_;
  Pid : Z;
  ProcessInfo : option ProcessInfo_ }.

(** A Valuer: (interface{}, error), or a panic. *)
Definition ValueFunc : Type := ScanInfo -> outcome (option value * option error).

(** os/user.User, the field the package reads. *)
Record User : Type := { Uid : string }.

(** What the package takes from the platform and the standard
    library, and the valuers that live in platform specific files. *)
Record Externals : Type := {
  GOOS : string;
  time_Now : Time;
  time_Format : Time -> string -> string;
  strconv_ParseInt : string -> Z * option error;
  user_Lookup : string -> User + error;
  varFileHiddenFunc : ValueFunc;
  varFileSystemFunc : ValueFunc;
  varFileCompressedFunc : ValueFunc;
  varFileEncryptedFunc : ValueFunc;
  varProcessSessionIdFunc : ValueFunc }.

(** The full ScanContext interface over a world [W] that holds the
    state of the definers and of the context itself; [Dh] is the
    type of definer handles. *)
Record ScanContext (Dh W : Type) : Type := {
  info :> ScanInfo;
  HandleValueError : Dh -> VariableType -> error -> W -> option error * W }.

End Collaborators.
Arguments Timespec : clear implicits.
Arguments FileInfo_ : clear implicits.
Arguments ProcessInfo_ : clear implicits.
Arguments ScanInfo : clear implicits.
Arguments ValueFunc : clear implicits.
Arguments Externals : clear implicits.
Arguments ScanContext : clear implicits.
Arguments info {Time GoContext Dh W} s.
Arguments HandleValueError {Time GoContext Dh W} s.

(** The VariableDefiner interface: a handle [Dh] whose DefineVariable
    acts on the world [W]. *)
Class VariableDefiner (Dh W : Type) : Type :=
  DefineVariable : Dh -> string -> value -> W -> option error * W.

(** *** Valuers *)

Section Valuers.
Context {Time GoContext : Type} (X : Externals Time GoContext).
Local Abbreviation ScanInfo := (ScanInfo Time GoContext).
Local Abbreviation result := (outcome (option value * option error)).

Definition intFileTimeLayout : string := "20060102150405".

Definition vOsValueWindows : value := VString "windows".
Definition vOsValueLinux : value := VString "linux".
Definition vOsValueDarwin : value := VString "darwin".

Definition varOsFunc (_ : ScanInfo) : result :=
  if String.eqb (GOOS X) "windows" then Ret (Some vOsValueWindows, None)
  else if String.eqb (GOOS X) "linux" then Ret (Some vOsValueLinux, None)
  else if String.eqb (GOOS X) "darwin" then Ret (Some vOsValueDarwin, None)
  else Ret (Some (VString (GOOS X)), None).

Definition noopVarFunc (_ : ScanInfo) : result := Ret (None, None).

Definition varOsLinuxFunc (_ : ScanInfo) : result :=
  Ret (Some (VBool (String.eqb (GOOS X) "linux")), None).

Definition varOsWindowsFunc (_ : ScanInfo) : result :=
  Ret (Some (VBool (String.eqb (GOOS X) "windows")), None).

Definition varOsDarwinFunc (_ : ScanInfo) : result :=
  Ret (Some (VBool (String.eqb (GOOS X) "darwin")), None).

(** The int64 of strconv.ParseInt is boxed whatever the error. *)
Definition intTimeHelper (t : Time) : result :=
  let s := time_Format X t intFileTimeLayout in
  let '(n, err) := strconv_ParseInt X s in
  Ret (Some (VInt64 n), err).

Definition varTimeNowFunc (_ : ScanInfo) : result :=
  intTimeHelper (time_Now X).

Definition varFilePathFunc (sCtx : ScanInfo) : result :=
  let p := FilePath sCtx in
  if String.eqb p "" then Ret (Some (VString ""), None)
  else
    let p := filepath.Clean p in
    Ret (Some (VString p), None).

(** p.(string): the unchecked type assertion panics on a nil
    interface and on any other dynamic type. *)
Definition assert_string (p : option value) : outcome string :=
  match p with
  | Some (VString s) => Ret s
  | _ => Panic
  end.

Definition varFileNameFunc (sCtx : ScanInfo) : result :=
  match varFilePathFunc sCtx with
  | Panic => Panic
  | Ret (p, err) =>
      match err, p with
      | Some _, _ => Ret (p, err)
      | None, None => Ret (p, err)
      | None, Some _ =>
          match assert_string p with
          | Panic => Panic
          | Ret s =>
              if String.eqb s "" then Ret (p, err)
              else
                let base := filepath.Base s in
                if String.eqb base "." then Ret (Some (VString ""), None)
                else Ret (Some (VString base), None)
          end
      end
  end.

Definition varFileExtensionFunc (sCtx : ScanInfo) : result :=
  match varFilePathFunc sCtx with
  | Panic => Panic
  | Ret (p, err) =>
      match assert_string p with
      | Panic => Panic
      | Ret path =>
          match err, p with
          | Some _, _ => Ret (p, err)
          | None, None => Ret (p, err)
          | None, Some _ =>
              if String.eqb path "" then Ret (p, err)
              else if strings.HasPrefix path "."
                      && Nat.eqb (strings.CountByte path "."%char) 1
              then Ret (Some (VString ""), None)
              else
                let ext := filepath.Ext path in
                Ret (Some (VString (strings.TrimPrefix ext ".")), None)
          end
      end
  end.

Definition varFileReadonlyFunc (sCtx : ScanInfo) : result :=
  match FileInfo sCtx with
  | None => Ret (None, None)
  | Some info => Ret (Some (VBool (Z.eqb (Z.land (Perm (Mode info)) 146) 0)), None)
  end.

Definition varFileModifiedTimeFunc (sCtx : ScanInfo) : result :=
  match FileInfo sCtx with
  | None => Ret (None, None)
  | Some info => intTimeHelper (ModTime info)
  end.

Definition varFileAccessedTimeFunc (sCtx : ScanInfo) : result :=
  match FileInfo sCtx with
  | None => Ret (None, None)
  | Some info =>
      let ts := times_Get info in
      intTimeHelper (AccessTime ts)
  end.

Definition varFileChangedTimeFunc (sCtx : ScanInfo) : result :=
  match FileInfo sCtx with
  | None => Ret (None, None)
  | Some info =>
      let ts := times_Get info in
      if HasChangeTime ts then intTimeHelper (ChangeTime ts)
      else Ret (None, None)
  end.

Definition varFileBirthTimeFunc (sCtx : ScanInfo) : result :=
  match FileInfo sCtx with
  | None => Ret (None, None)
  | Some info =>
      let ts := times_Get info in
      if HasBirthTime ts then intTimeHelper (BirthTime ts)
      else Ret (None, None)
  end.

Definition varProcessIdFunc (sCtx : ScanInfo) : result :=
  Ret (Some (VInt64 (int64 (Pid sCtx))), None).

Definition varProcessParentIdFunc (sCtx : ScanInfo) : result :=
  match ProcessInfo sCtx with
  | None => Ret (None, None)
  | Some proc =>
      let '(ppid, err) := Ppid proc in
      match err with
      | Some _ => Ret (None, err)
      | None => Ret (Some (VInt64 (int64 ppid)), None)
      end
  end.

(** The string of proc.Username() is boxed whatever the error. *)
Definition varProcessUserNameFunc (sCtx : ScanInfo) : result :=
  match ProcessInfo sCtx with
  | None => Ret (None, None)
  | Some proc =>
      let '(name, err) := Username proc in
      Ret (Some (VString name), err)
  end.

Definition varProcessUserSidFunc (sCtx : ScanInfo) : result :=
  match varProcessUserNameFunc sCtx with
  | Panic => Panic
  | Ret (uname, err) =>
      match err with
      | Some _ => Ret (None, err)
      | None =>
          match uname with
          | Some (VString name) =>
              if String.eqb name "" then Ret (None, None)
              else match user_Lookup X name with
                   | inr err => Ret (None, Some err)
                   | inl usr => Ret (Some (VString (Uid usr)), None)
                   end
          | _ => Ret (None, None)
          end
      end
  end.

Definition varProcessNameFunc (sCtx : ScanInfo) : result :=
  match ProcessInfo sCtx with
  | None => Ret (None, None)
  | Some proc =>
      let '(name, err) := NameWithContext proc (Context_ sCtx) in
      Ret (Some (VString name), err)
  end.

Definition varProcessCommandLineFunc (sCtx : ScanInfo) : result :=
  match ProcessInfo sCtx with
  | None => Ret (None, None)
  | Some proc =>
      let '(cmd, err) := CmdlineWithContext proc (Context_ sCtx) in
      Ret (Some (VString cmd), err)
  end.

(** The [typeEnd]-sized Valuers array; index 0 is the nil Valuer. *)
Definition Valuers : list (option (ValueFunc Time GoContext)) :=
  [ None;
    Some varOsFunc;
    Some varOsLinuxFunc;
    Some varOsWindowsFunc;
    Some varOsDarwinFunc;
    Some varTimeNowFunc;
    Some varFilePathFunc;
    Some varFileNameFunc;
    Some varFileExtensionFunc;
    Some varFileReadonlyFunc;
    Some (varFileHiddenFunc X);
    Some (varFileSystemFunc X);
    Some (varFileCompressedFunc X);
    Some (varFileEncryptedFunc X);
    Some varFileModifiedTimeFunc;
    Some varFileAccessedTimeFunc;
    Some varFileChangedTimeFunc;
    Some varFileBirthTimeFunc;
    Some varProcessIdFunc;
    Some varProcessParentIdFunc;
    Some varProcessUserNameFunc;
    Some varProcessUserSidFunc;
    Some (varProcessSessionIdFunc X);
    Some varProcessNameFunc;
    Some varFilePathFunc;  (* FilePath holds the process's path as well. *)
    Some varProcessCommandLineFunc ].

(** Valuers[vid].Value(sCtx): indexing past the array panics, and so
    does the method call on the nil Valuer. *)
Definition Value (vid : VariableType) (sCtx : ScanInfo) : result :=
  match Valuers !! N.to_nat vid with
  | Some (Some fn) => fn sCtx
  | _ => Panic
  end.

End Valuers.

(** *** The value resolver *)

Section Resolver.
Context {Time GoContext : Type} (X : Externals Time GoContext).
Context {Dh W : Type} {D : VariableDefiner Dh W}.

(** float64(0) *)
Definition float64_zero : spec_float := S754_zero false.

Definition defineDefaultValue (vid : VariableType) (def : Dh) (w : W) : option error * W :=
  let meta := Meta vid in
  if negb (N.land meta MetaString =? 0) then
    DefineVariable def (String_ vid) (VString "") w
  else if negb (N.land meta MetaInt =? 0) then
    DefineVariable def (String_ vid) (VInt64 (int64 0)) w
  else if negb (N.land meta MetaBool =? 0) then
    DefineVariable def (String_ vid) (VBool false) w
  else if negb (N.land meta MetaFloat =? 0) then
    DefineVariable def (String_ vid) (VFloat64 float64_zero) w
  else (Some (ErrUnknownVariable vid), w).

(** The range loop of DefineCompilerVariables over vr.list. *)
Fixpoint DefineCompilerVariables_loop (l : list VariableType) (compiler : Dh) (w : W)
    : option error * W :=
  match l with
  | [] => (None, w)
  | vid :: l' =>
      match defineDefaultValue vid compiler w with
      | (Some err, w') => (Some err, w')
      | (None, w') => DefineCompilerVariables_loop l' compiler w'
      end
  end.

Definition DefineCompilerVariables (vr : Variables_) (compiler : Dh) (w : W)
    : option error * W :=
  DefineCompilerVariables_loop (list_ vr) compiler w.

(** The range loop of DefineScannerVariables over vr.list. *)
Fixpoint DefineScannerVariables_loop (l : list VariableType)
    (sCtx : ScanContext Time GoContext Dh W) (scanner : Dh) (w : W)
    : outcome (option error) * W :=
  match l with
  | [] => (Ret None, w)
  | vid :: l' =>
      match Value X vid sCtx with
      | Panic => (Panic, w)
      | Ret (Some v, None) =>
          match DefineVariable scanner (String_ vid) v w with
          | (Some err, w') => (Ret (Some err), w')
          | (None, w') => DefineScannerVariables_loop l' sCtx scanner w'
          end
      | Ret (_, err) =>
          match defineDefaultValue vid scanner w with
          | (Some e, w') =>
              match err with
              | Some err => (Ret (Some (ErrJoin err e)), w')
              | None => (Ret (Some e), w')
              end
          | (None, w') =>
              match err with
              | Some err =>
                  match HandleValueError sCtx scanner vid err w' with
                  | (Some err', w'') => (Ret (Some err'), w'')
                  | (None, w'') => DefineScannerVariables_loop l' sCtx scanner w''
                  end
              | None => DefineScannerVariables_loop l' sCtx scanner w'
              end
          end
      end
  end.

Definition DefineScannerVariables (vr : Variables_)
    (sCtx : ScanContext Time GoContext Dh W) (scanner : Dh) (w : W)
    : outcome (option error) * W :=
  DefineScannerVariables_loop (list_ vr) sCtx scanner w.

End Resolver.

(** *** Recording definers and contexts

    The calls a definer and a failure hook receive, with what they
    answered, in the order they happened. *)

Inductive event (Dh : Type) : Type :=
  | EvDefine (def : Dh) (name : string) (v : value) (r : option error)
  | EvHook (def : Dh) (vid : VariableType) (err : error) (r : option error).
Arguments EvDefine {Dh} def name v r.
Arguments EvHook {Dh} def vid err r.

Section Recording.
Context {Time GoContext Dh W : Type} (D : VariableDefiner Dh W).

(** The definer [D], appending every DefineVariable call to a log. *)
Definition recDefiner : VariableDefiner Dh (W * list (event Dh)) :=
  fun def name v wl =>
    let '(r, w') := D def name v (fst wl) in
    (r, (w', (snd wl ++ [EvDefine def name v r])%list)).

(** The context [sCtx], appending every HandleValueError call to the log. *)
Definition recContext (sCtx : ScanContext Time GoContext Dh W)
    : ScanContext Time GoContext Dh (W * list (event Dh)) :=
  {| info := info sCtx;
     HandleValueError := fun def vid err wl =>
       let '(r, w') := HandleValueError sCtx def vid err (fst wl) in
       (r, (w', (snd wl ++ [EvHook def vid err r])%list)) |}.

End Recording.

End variables.

(** ** Package gora (gora.go) *)
Module gora.

Definition ErrAlreadyCompiled : error := ErrorsNew "already compiled".

(** ScanTarget is a byte. *)
Definition ScanTarget : Type := N.
Definition ScanFile : ScanTarget := 0.
Definition ScanProcess : ScanTarget := 1.

Record RuleNamespace : Type := { Rule : string; Namespace : string }.

(** yara.CompilerMessage, the fields the package prints. *)
Record CompilerMessage : Type := { Filename : string; Line : Z; Text : string }.

(** fs.FileInfo as os.Stat and File.Stat give it. *)
Record FileInfo : Type := { IsDir : bool; Mode : Z }.

(** fs.ModeType = ModeDir | ModeSymlink | ModeNamedPipe | ModeSocket |
    ModeDevice | ModeCharDevice | ModeIrregular. *)
Definition ModeType : Z :=
  (2 ^ 31 + 2 ^ 27 + 2 ^ 25 + 2 ^ 24 + 2 ^ 26 + 2 ^ 21 + 2 ^ 19)%Z.

(** fs.FileMode.IsRegular *)
Definition IsRegular (m : Z) : bool := Z.eqb (Z.land m ModeType) 0.

Section Collaborators.
(** Handles of the engine and of the operating system, the state of the
    rule-source parser, and the world they act on. *)
Context {Compiler Rules Scanner File Parser W : Type}.

(** An io.Reader handed to the parser. *)
Inductive Reader : Type :=
  | strings_NewReader (s : string)
  | file_Reader (f : File).

(** The yara engine, the parser of package variables (parser.go) and
    the os package, as the compile operations use them.  A pointer
    result that may be nil is an [option]. *)
Record Environment : Type := {
  yara_NewCompiler : W -> (Compiler + error) * W;
  Compiler_Destroy : Compiler -> W -> W;
  Compiler_DefineVariable : Compiler -> string -> value -> W -> option error * W;
  Compiler_AddString : Compiler -> string -> string -> W -> option error * W;
  Compiler_AddFile : Compiler -> File -> string -> W -> option error * W;
  Compiler_GetRules : Compiler -> W -> (option Rules * option error) * W;
  Compiler_Errors : Compiler -> W -> list CompilerMessage;
  Parser_new : Parser;
  ParseFromReader : Parser -> Reader -> W -> (option error * Parser) * W;
  Includes : Parser -> list string;
  Parser_Variables : Parser -> list VariableType;
  os_Stat : string -> W -> (FileInfo + error) * W;
  os_Open : string -> W -> (File + error) * W;
  File_Close : File -> W -> W;
  File_Stat : File -> W -> (FileInfo + error) * W;
  File_Readdirnames : File -> W -> (list string * option error) * W;
  File_Seek_start : File -> W -> W;
  File_Name : File -> string;
  strings_EqualFold : string -> string -> bool }.

(** Compiled holds the compiled rules and its external variables. *)
Record Compiled : Type := {
  vars : variables.Variables_;
  rules : option Rules;
  scanner : option Scanner }.

Definition NewCompiled : Compiled :=
  {| vars := {| variables.list_ := [] |}; rules := None; scanner := None |}.

End Collaborators.
Arguments Reader : clear implicits.
Arguments Environment : clear implicits.
Arguments Compiled : clear implicits.
Arguments NewCompiled {Rules Scanner}.

Section Compile.
Context {Compiler Rules Scanner File Parser W : Type}.
Context (E : Environment Compiler Rules File Parser W).
Local Abbreviation Compiled := (Compiled Rules Scanner).

(** The compiler is the VariableDefiner of DefineCompilerVariables. *)
Definition compilerDefiner : variables.VariableDefiner Compiler W :=
  Compiler_DefineVariable E.

Definition set_vars (c : Compiled) (v : variables.Variables_) : Compiled :=
  {| vars := v; rules := rules c; scanner := scanner c |}.

Definition set_rules (c : Compiled) (r : option Rules) : Compiled :=
  {| vars := vars c; rules := r; scanner := scanner c |}.

Definition initVariables (c : Compiled) (target : ScanTarget)
    (vars : list VariableType) : option error * Compiled :=
  if target =? ScanProcess then
    (None, set_vars c (variables.InitProcessVariables (gora.vars c) vars))
  else if target =? ScanFile then
    (None, set_vars c (variables.InitFileVariables (gora.vars c) vars))
  else (Some (ErrorsNew ("invalid scan target:" ++ pretty target)), c).

Fixpoint mergeCompilerErrors_loop (i : Z) (cm : list CompilerMessage) : list string :=
  match cm with
  | [] => []
  | m :: cm' =>
      ("#" ++ pretty (i + 1)%Z ++ " '" ++ Text m ++ "' '"
           ++ filepath.Base (Filename m) ++ "':" ++ pretty (Line m))
        :: mergeCompilerErrors_loop (i + 1) cm'
  end.

(** strings.Join *)
Fixpoint strings_Join (elems : list string) (sep : string) : string :=
  match elems with
  | [] => ""
  | [e] => e
  | e :: elems' => e ++ sep ++ strings_Join elems' sep
  end.

Definition mergeCompilerErrors (cm : list CompilerMessage) : string :=
  strings_Join (mergeCompilerErrors_loop 0 cm) " ; ".

(** compilerError with a non-nil compiler. *)
Definition compilerError (c : Compiler) (err : error) (w : W) : error :=
  if (1 <? length (Compiler_Errors E c w))%nat
  then ErrMore err (mergeCompilerErrors (drop 1 (Compiler_Errors E c w)))
  else err.

(** The first loop of CompileStrings: every rule is parsed by the one
    parser, and fallbackAllVars latches once an include is seen. *)
Fixpoint parseStrings (ruleNs : list RuleNamespace) (parser : Parser)
    (fallbackAllVars : bool) (w : W) : (error + Parser * bool) * W :=
  match ruleNs with
  | [] => (inr (parser, fallbackAllVars), w)
  | rule :: ruleNs' =>
      match ParseFromReader E parser (strings_NewReader (Rule rule)) w with
      | (Some err, _, w') => (inl (ErrWrap "variable parser error" err), w')
      | (None, parser', w') =>
          let fallbackAllVars' :=
            if (0 <? length (Includes E parser'))%nat then true else fallbackAllVars in
          parseStrings ruleNs' parser' fallbackAllVars' w'
      end
  end.

(** The second loop of CompileStrings. *)
Fixpoint addStrings (ruleNs : list RuleNamespace) (compiler : Compiler) (w : W)
    : option error * W :=
  match ruleNs with
  | [] => (None, w)
  | rule :: ruleNs' =>
      match Compiler_AddString E compiler (Rule rule) (Namespace rule) w with
      | (Some err, w') =>
          (Some (compilerError compiler (ErrWrap "compiler add rule error" err) w'), w')
      | (None, w') => addStrings ruleNs' compiler w'
      end
  end.

(** CompileStrings after the compiler exists, up to its return; the
    deferred compiler.Destroy() is applied by the caller below. *)
Definition CompileStrings_body (c : Compiled) (target : ScanTarget)
    (ruleNs : list RuleNamespace) (compiler : Compiler) (w : W)
    : option error * Compiled * W :=
  match parseStrings ruleNs (Parser_new E) false w with
  | (inl err, w1) => (Some err, c, w1)
  | (inr (parser, fallbackAllVars), w1) =>
      let vars := Parser_Variables E parser in
      let vars := if fallbackAllVars then variables.List else vars in
      match initVariables c target vars with
      | (Some err, c1) => (Some err, c1, w1)
      | (None, c1) =>
          match variables.DefineCompilerVariables (D := compilerDefiner)
                  (gora.vars c1) compiler w1 with
          | (Some err, w2) =>
              (Some (compilerError compiler
                       (ErrWrap "compiler define variable error" err) w2), c1, w2)
          | (None, w2) =>
              match addStrings ruleNs compiler w2 with
              | (Some err, w3) => (Some err, c1, w3)
              | (None, w3) =>
                  match Compiler_GetRules E compiler w3 with
                  | (r, Some err, w4) =>
                      (Some (compilerError compiler
                               (ErrWrap "compiler get rules error" err) w4),
                       set_rules c1 r, w4)
                  | (r, None, w4) => (None, set_rules c1 r, w4)
                  end
              end
          end
      end
  end.

Definition CompileStrings (c : Compiled) (target : ScanTarget)
    (ruleNs : list RuleNamespace) (w : W) : option error * Compiled * W :=
  match rules c with
  | Some _ => (Some ErrAlreadyCompiled, c, w)
  | None =>
      match yara_NewCompiler E w with
      | (inr err, w0) => (Some (ErrWrap "yara compiler error" err), c, w0)
      | (inl compiler, w0) =>
          let '(r, c', w') := CompileStrings_body c target ruleNs compiler w0 in
          (r, c', Compiler_Destroy E compiler w')
      end
  end.

Definition CompileString (c : Compiled) (target : ScanTarget)
    (rule namespace : string) (w : W) : option error * Compiled * W :=
  CompileStrings c target [ {| Rule := rule; Namespace := namespace |} ] w.

(** The loop of CompileFiles over the paths.  [files] are the files
    kept open so far; they are returned on every path because the
    deferred function closes them whatever the result. *)
Fixpoint openFiles (paths : list string) (parser : Parser) (fallbackAllVars : bool)
    (files : list File) (w : W) : option error * Parser * bool * list File * W :=
  match paths with
  | [] => (None, parser, fallbackAllVars, files, w)
  | path :: paths' =>
      match os_Open E path w with
      | (inr err, w1) => (Some err, parser, fallbackAllVars, files, w1)
      | (inl f, w1) =>
          match File_Stat E f w1 with
          | (inr err, w2) =>
              (Some err, parser, fallbackAllVars, files, File_Close E f w2)
          | (inl info, w2) =>
              if negb (IsRegular (Mode info)) then
                openFiles paths' parser fallbackAllVars files (File_Close E f w2)
              else
                let files' := (files ++ [f])%list in
                match ParseFromReader E parser (file_Reader f) w2 with
                | (Some err, parser', w3) =>
                    (Some (ErrWrap "variable parser error" err),
                     parser', fallbackAllVars, files', w3)
                | (None, parser', w3) =>
                    let w4 := File_Seek_start E f w3 in
                    let fallbackAllVars' :=
                      if (0 <? length (Includes E parser'))%nat then true
                      else fallbackAllVars in
                    openFiles paths' parser' fallbackAllVars' files' w4
                end
          end
      end
  end.

(** The loop of compileFiles. *)
Fixpoint addFiles (files : list File) (compiler : Compiler) (filenameNS : bool) (w : W)
    : option error * W :=
  match files with
  | [] => (None, w)
  | file :: files' =>
      let namespace := if filenameNS then filepath.Base (File_Name E file) else "" in
      match Compiler_AddFile E compiler file namespace w with
      | (Some err, w') =>
          (Some (compilerError compiler (ErrWrap "compiler add rule error" err) w'), w')
      | (None, w') => addFiles files' compiler filenameNS w'
      end
  end.

Definition compileFiles (compiler : Compiler) (files : list File) (filenameNS : bool)
    (w : W) : option Rules * option error * W :=
  match addFiles files compiler filenameNS w with
  | (Some err, w1) => (None, Some err, w1)
  | (None, w1) =>
      match Compiler_GetRules E compiler w1 with
      | (_, Some err, w2) =>
          (None,
           Some (compilerError compiler (ErrWrap "compiler get rules error" err) w2),
           w2)
      | (r, None, w2) => (r, None, w2)
      end
  end.

(** The deferred closing of the files kept open. *)
Fixpoint closeFiles (files : list File) (w : W) : W :=
  match files with
  | [] => w
  | file :: files' => closeFiles files' (File_Close E file w)
  end.

(** CompileFiles after the compiler exists, up to its return, with the
    files its deferred function will close. *)
Definition CompileFiles_body (c : Compiled) (target : ScanTarget) (filenameNS : bool)
    (paths : list string) (compiler : Compiler) (w : W)
    : option error * Compiled * list File * W :=
  match openFiles paths (Parser_new E) false [] w with
  | (Some err, _, _, files, w1) => (Some err, c, files, w1)
  | (None, parser, fallbackAllVars, files, w1) =>
      let vars := Parser_Variables E parser in
      let vars := if fallbackAllVars then variables.List else vars in
      match initVariables c target vars with
      | (Some err, c1) => (Some err, c1, files, w1)
      | (None, c1) =>
          match variables.DefineCompilerVariables (D := compilerDefiner)
                  (gora.vars c1) compiler w1 with
          | (Some err, w2) =>
              (Some (compilerError compiler
                       (ErrWrap "compiler define variable error" err) w2),
               c1, files, w2)
          | (None, w2) =>
              let '(r, err, w3) := compileFiles compiler files filenameNS w2 in
              (err, set_rules c1 r, files, w3)
          end
      end
  end.

Definition CompileFiles (c : Compiled) (target : ScanTarget) (filenameNS : bool)
    (paths : list string) (w : W) : option error * Compiled * W :=
  match rules c with
  | Some _ => (Some ErrAlreadyCompiled, c, w)
  | None =>
      match yara_NewCompiler E w with
      | (inr err, w0) => (Some (ErrWrap "compiler error" err), c, w0)
      | (inl compiler, w0) =>
          let '(r, c', files, w') :=
            CompileFiles_body c target filenameNS paths compiler w0 in
          (r, c', Compiler_Destroy E compiler (closeFiles files w'))
      end
  end.

(** The rule files of a directory listing, joined to the directory. *)
Fixpoint ruleFilePaths (dir : string) (names : list string) : list string :=
  match names with
  | [] => []
  | name :: names' =>
      let ext := filepath.Ext name in
      if negb (strings_EqualFold E ext ".yar") && negb (strings_EqualFold E ext ".yara")
      then ruleFilePaths dir names'
      else filepath.Join dir name :: ruleFilePaths dir names'
  end.

Definition CompileDir (c : Compiled) (target : ScanTarget) (filenameNS : bool)
    (dir : string) (w : W) : option error * Compiled * W :=
  match rules c with
  | Some _ => (Some ErrAlreadyCompiled, c, w)
  | None =>
      match os_Open E dir w with
      | (inr err, w0) => (Some err, c, w0)
      | (inl f, w0) =>
          let '(r, c', w') :=
            match File_Readdirnames E f w0 with
            | (_, Some err, w1) => (Some err, c, w1)
            | (names, None, w1) =>
                let paths := ruleFilePaths dir names in
                if (length paths =? 0)%nat then (Some (ErrorsNew "no yara files"), c, w1)
                else CompileFiles c target filenameNS paths w1
            end in
          (r, c', File_Close E f w')
      end
  end.

Definition CompileFileOrDir (c : Compiled) (target : ScanTarget) (filenameNS : bool)
    (path : string) (w : W) : option error * Compiled * W :=
  match rules c with
  | Some _ => (Some ErrAlreadyCompiled, c, w)
  | None =>
      match os_Stat E path w with
      | (inr err, w0) => (Some err, c, w0)
      | (inl info, w0) =>
          if IsDir info then CompileDir c target filenameNS path w0
          else if IsRegular (Mode info) then CompileFiles c target filenameNS [path] w0
          else (Some (ErrorsNew ("'" ++ path ++ "' is not a directory or a regular file")),
                c, w0)
      end
  end.

End Compile.

End gora.

(** ** What the specification says, as definitions to compare with *)
Module spec.

(** An identifier's metadata intersects the target mask. *)
Definition applicable (metaMask : MetaType) (v : VariableType) : Prop :=
  N.land (variables.Meta v) metaMask ≠ 0.

#[global] Instance applicable_dec metaMask v : Decision (applicable metaMask v).
Proof. unfold applicable. apply _. Defined.

(** Deduplication, first occurrence wins. *)
Fixpoint dedup_first (l : list VariableType) : list VariableType :=
  match l with
  | [] => []
  | x :: l' => x :: filter (fun y => y ≠ x) (dedup_first l')
  end.

(** Build(candidates, mask): deduplicate, then keep the applicable. *)
Definition Build (candidates : list VariableType) (metaMask : MetaType)
    : list VariableType :=
  filter (applicable metaMask) (dedup_first candidates).

(** The four value-type bits. *)
Definition typeBits : MetaType := 15.

(** The zero value of a value type: "" / 0 / false / 0.0. *)
Definition zero_of_type (t : MetaType) : option value :=
  if t =? variables.MetaString then Some (VString "")
  else if t =? variables.MetaInt then Some (VInt64 0)
  else if t =? variables.MetaBool then Some (VBool false)
  else if t =? variables.MetaFloat then Some (VFloat64 (S754_zero false))
  else None.

(** The zero value of a registered identifier: every one of them has
    exactly one value-type bit. *)
Definition zero_value (vid : VariableType) : value :=
  match zero_of_type (N.land (variables.Meta vid) typeBits) with
  | Some v => v
  | None => VString ""
  end.

(** Every valid identifier: 1 up to the last registered one. *)
Definition valid (v : VariableType) : Prop :=
  1 <= v /\ v <= variables.VarProcessCommandLine.

Section Events.
Context {Dh W : Type}.

(** What resolving one identifier asks of the scanner and of the
    failure hook when every call succeeds, given what its computation
    routine returned. *)
Definition resolved_events (scanner : Dh) (vid : VariableType)
    (r : outcome (option value * option error)) : list (variables.event Dh) :=
  match r with
  | Ret (Some v, None) =>
      [variables.EvDefine scanner (variables.String_ vid) v None]
  | Ret (None, None) =>
      [variables.EvDefine scanner (variables.String_ vid) (zero_value vid) None]
  | Ret (_, Some err) =>
      [variables.EvDefine scanner (variables.String_ vid) (zero_value vid) None;
       variables.EvHook scanner vid err None]
  | Panic => []
  end.

(** The hook calls among them: one when the routine failed, else none. *)
Definition hook_events (scanner : Dh) (vid : VariableType)
    (r : outcome (option value * option error)) : list (variables.event Dh) :=
  match r with
  | Ret (_, Some err) => [variables.EvHook scanner vid err None]
  | _ => []
  end.

Definition is_hook (ev : variables.event Dh) : bool :=
  match ev with
  | variables.EvHook _ _ _ _ => true
  | variables.EvDefine _ _ _ _ => false
  end.

(** The world after the definer calls of a log, replayed in order. *)
Fixpoint replay (D : variables.VariableDefiner Dh W)
    (log : list (variables.event Dh)) (w : W) : W :=
  match log with
  | [] => w
  | variables.EvDefine def name v _ :: log' => replay D log' (snd (D def name v w))
  | variables.EvHook _ _ _ _ :: log' => replay D log' w
  end.

End Events.

Section Runs.
Context {Time GoContext : Type} (X : variables.Externals Time GoContext).
Context {Dh : Type}.

(** A defaults pass in which every definition succeeds: one zero value
    per selected identifier, in selector order. *)
Definition compiler_events (compiler : Dh) (l : list VariableType)
    : list (variables.event Dh) :=
  map (fun vid => variables.EvDefine compiler (variables.String_ vid) (zero_value vid) None) l.

(** A resolution pass in which every call succeeds, in selector order. *)
Definition scanner_events (sCtx : variables.ScanInfo Time GoContext) (scanner : Dh)
    (l : list VariableType) : list (variables.event Dh) :=
  flat_map (fun vid => resolved_events scanner vid (variables.Value X vid sCtx)) l.

(** Its hook calls: one per identifier whose routine failed. *)
Definition scanner_hooks (sCtx : variables.ScanInfo Time GoContext) (scanner : Dh)
    (l : list VariableType) : list (variables.event Dh) :=
  flat_map (fun vid => hook_events scanner vid (variables.Value X vid sCtx)) l.

(** What a defaults pass over [l] may end in, with the calls it made. *)
Definition compiler_post (compiler : Dh) (l : list VariableType)
    (res : option error) (log : list (variables.event Dh)) : Prop :=
  match res with
  | None => log = compiler_events compiler l
  | Some e =>
      exists l1 vid l2, l = (l1 ++ vid :: l2)%list
        /\ (log = (compiler_events compiler l1
                   ++ [variables.EvDefine compiler (variables.String_ vid)
                         (zero_value vid) (Some e)])%list
            \/ (N.land (variables.Meta vid) typeBits = 0
                /\ e = ErrUnknownVariable vid
                /\ log = compiler_events compiler l1))
  end.

(** What a resolution pass over [l] may end in, with the calls it made. *)
Definition scanner_post (sCtx : variables.ScanInfo Time GoContext) (scanner : Dh)
    (l : list VariableType) (res : outcome (option error))
    (log : list (variables.event Dh)) : Prop :=
  match res with
  | Ret None =>
      log = scanner_events sCtx scanner l
      /\ List.filter is_hook log = scanner_hooks sCtx scanner l
  | Ret (Some E) =>
      exists l1 vid l2 v err last,
        l = (l1 ++ vid :: l2)%list
        /\ variables.Value X vid sCtx = Ret (v, err)
        /\ log = (scanner_events sCtx scanner l1 ++ last)%list
        /\ ((exists val, v = Some val /\ err = None
               /\ last = [variables.EvDefine scanner (variables.String_ vid) val (Some E)])
            \/ (exists e, (err <> None \/ v = None)
                  /\ last = [variables.EvDefine scanner (variables.String_ vid)
                               (zero_value vid) (Some e)]
                  /\ E = match err with Some er => ErrJoin er e | None => e end)
            \/ (exists er, err = Some er
                  /\ last = [variables.EvDefine scanner (variables.String_ vid)
                               (zero_value vid) None;
                             variables.EvHook scanner vid er (Some E)]))
  | Panic =>
      exists l1 vid l2, l = (l1 ++ vid :: l2)%list
        /\ variables.Value X vid sCtx = Panic
        /\ log = scanner_events sCtx scanner l1
  end.

End Runs.

(** The parser states after each rule parsed without error, in order:
    what "a source's parse reports an include" is read from. *)
Module parsed.
Section Parsed.
Context {Compiler Rules File Parser W : Type}.
Context (E : gora.Environment Compiler Rules File Parser W).

Definition has_include (parser : Parser) : bool :=
  (0 <? length (gora.Includes E parser))%nat.

Fixpoint of_strings (ruleNs : list gora.RuleNamespace) (parser : Parser) (w : W)
    : list Parser :=
  match ruleNs with
  | [] => []
  | rule :: ruleNs' =>
      match gora.ParseFromReader E parser (gora.strings_NewReader (gora.Rule rule)) w with
      | (Some _, _, _) => []
      | (None, parser', w') => parser' :: of_strings ruleNs' parser' w'
      end
  end.

(** For files: only a regular file that opens is parsed. *)
Fixpoint of_files (paths : list string) (parser : Parser) (w : W) : list Parser :=
  match paths with
  | [] => []
  | path :: paths' =>
      match gora.os_Open E path w with
      | (inr _, _) => []
      | (inl f, w1) =>
          match gora.File_Stat E f w1 with
          | (inr _, _) => []
          | (inl info, w2) =>
              if negb (gora.IsRegular (gora.Mode info))
              then of_files paths' parser (gora.File_Close E f w2)
              else match gora.ParseFromReader E parser (gora.file_Reader f) w2 with
                   | (Some _, _, _) => []
                   | (None, parser', w3) =>
                       parser' :: of_files paths' parser' (gora.File_Seek_start E f w3)
                   end
          end
      end
  end.

End Parsed.
End parsed.

(** The applicability mask of a scan target. *)
Definition target_mask (target : gora.ScanTarget) : MetaType :=
  if target =? gora.ScanProcess then variables.MetaProcess else variables.MetaFile.

End spec.

(** ** A small instance of the collaborators, to run the operations on *)
Module demo.

(** A Linux host with a fixed clock; the platform specific valuers are
    the package's noopVarFunc. *)
Definition externals : variables.Externals unit unit :=
  {| variables.GOOS := "linux";
     variables.time_Now := tt;
     variables.time_Format := fun _ _ => "20240102030405";
     variables.strconv_ParseInt := fun _ => (20240102030405%Z, None);
     variables.user_Lookup := fun _ => inl {| variables.Uid := "1000" |};
     variables.varFileHiddenFunc := variables.noopVarFunc;
     variables.varFileSystemFunc := variables.noopVarFunc;
     variables.varFileCompressedFunc := variables.noopVarFunc;
     variables.varFileEncryptedFunc := variables.noopVarFunc;
     variables.varProcessSessionIdFunc := variables.noopVarFunc |}.

(** A definer whose world is the list of its definitions; it rejects
    the names in [rejected]. *)
Definition definer (rejected : list string)
    : variables.VariableDefiner unit (list (string * value)) :=
  fun _ name v w =>
    if existsb (String.eqb name) rejected
    then (Some (ErrorsNew "undefined identifier"), w)
    else (None, (w ++ [(name, v)])%list).

(** A file scan of a dotfile inside a directory, by process 42, with no
    file metadata and no process introspection. *)
Definition file_scan : variables.ScanInfo unit unit :=
  {| variables.Context_ := tt;
     variables.FilePath := "dir/.gitignore";
     variables.FileInfo := None;
     variables.Pid := 42;
     variables.ProcessInfo := None |}.

(** A process scan whose process has gone: its parent pid is an error. *)
Definition process_scan : variables.ScanInfo unit unit :=
  {| variables.Context_ := tt;
     variables.FilePath := "/usr/bin/tool";
     variables.FileInfo := None;
     variables.Pid := 42;
     variables.ProcessInfo :=
       Some {| variables.Ppid := (0%Z, Some (ErrorsNew "no such process"));
               variables.Username := ("root", None);
               variables.NameWithContext := fun _ => ("tool", None);
               variables.CmdlineWithContext := fun _ => ("tool -v", None) |} |}.

(** A context whose hook lets every failed computation pass. *)
Definition lenient (i : variables.ScanInfo unit unit)
    : variables.ScanContext unit unit unit (list (string * value)) :=
  {| variables.info := i;
     variables.HandleValueError := fun _ _ _ w => (None, w) |}.

(** An engine that accepts everything, a file system with no file, and
    a parser for which a source starting with the word include holds one
    include directive and every other source refers to file_name. *)
Definition environment
    : gora.Environment unit unit string (list string * list VariableType)
        (list (string * value)) :=
  {| gora.yara_NewCompiler := fun w => (inl tt, w);
     gora.Compiler_Destroy := fun _ w => w;
     gora.Compiler_DefineVariable := definer [];
     gora.Compiler_AddString := fun _ _ _ w => (None, w);
     gora.Compiler_AddFile := fun _ _ _ w => (None, w);
     gora.Compiler_GetRules := fun _ w => (Some tt, None, w);
     gora.Compiler_Errors := fun _ _ => [];
     gora.Parser_new := ([], []);
     gora.ParseFromReader := fun parser r w =>
       match r with
       | gora.strings_NewReader s =>
           if strings.HasPrefix s "include"
           then (None, (s :: fst parser, snd parser), w)
           else (None, (fst parser, variables.VarFileName :: snd parser), w)
       | gora.file_Reader _ => (Some (ErrorsNew "read error"), parser, w)
       end;
     gora.Includes := fst;
     gora.Parser_Variables := snd;
     gora.os_Stat := fun _ w => (inr (ErrorsNew "no such file or directory"), w);
     gora.os_Open := fun _ w => (inr (ErrorsNew "no such file or directory"), w);
     gora.File_Close := fun _ w => w;
     gora.File_Stat := fun _ w => (inr (ErrorsNew "bad file descriptor"), w);
     gora.File_Readdirnames := fun _ w => ([], None, w);
     gora.File_Seek_start := fun _ w => w;
     gora.File_Name := fun f => f;
     gora.strings_EqualFold := String.eqb |}.

(** An instance that has compiled. *)
Definition compiled : gora.Compiled unit unit :=
  {| gora.vars := {| variables.list_ := [variables.VarOs] |};
     gora.rules := Some tt;
     gora.scanner := None |}.

(** Two selectors for process scans. *)
Definition defaults_selector : variables.Variables_ :=
  variables.InitProcessVariables {| variables.list_ := [] |}
    [variables.VarOs; variables.VarProcessId; variables.VarTimeNow].

Definition resolution_selector : variables.Variables_ :=
  variables.InitProcessVariables {| variables.list_ := [] |}
    [variables.VarFilePath; variables.VarProcessParentId;
     variables.VarFileReadonly; variables.VarProcessName].

(** A rule source that includes another file. *)
Definition including_rule : gora.RuleNamespace :=
  {| gora.Rule := "include other.yar"; gora.Namespace := "" |}.

End demo.

(** ** Package gora, the scanner side of Compiled (gora.go) *)
Module gora_scanner.

Section Scanner.
Context {Rules Scanner W : Type}.

(** The yara calls of CreateScanner and Destroy.  yara.NewScanner takes
    the rules pointer as it is, nil included, and returns
    (scanner pointer, error). *)
Record Engine : Type := {
  yara_NewScanner : option Rules -> W -> (option Scanner * option error) * W;
  Scanner_Destroy : Scanner -> W -> W;
  Rules_Destroy : Rules -> W -> W }.

Context (S : Engine).
Local Abbreviation Compiled := (gora.Compiled Rules Scanner).

Definition set_scanner (c : Compiled) (s : option Scanner) : Compiled :=
  {| gora.vars := gora.vars c; gora.rules := gora.rules c; gora.scanner := s |}.

Definition Variables (c : Compiled) : variables.Variables_ := gora.vars c.

Definition Rules_ (c : Compiled) : option Rules := gora.rules c.

Definition Scanner_ (c : Compiled) : option Scanner := gora.scanner c.

Definition CreateScanner (c : Compiled) (w : W) : option error * Compiled * W :=
  match yara_NewScanner S (gora.rules c) w with
  | (_, Some err, w') => (Some err, c, w')
  | (s, None, w') => (None, set_scanner c s, w')
  end.

Definition Destroy (c : Compiled) (w : W) : Compiled * W :=
  let '(c1, w1) :=
    match gora.scanner c with
    | Some s => (set_scanner c None, Scanner_Destroy S s w)
    | None => (c, w)
    end in
  match gora.rules c1 with
  | Some r =>
      ({| gora.vars := gora.vars c1; gora.rules := None; gora.scanner := gora.scanner c1 |},
       Rules_Destroy S r w1)
  | None => (c1, w1)
  end.

End Scanner.
Arguments Engine : clear implicits.

End gora_scanner.

(** ** The Go types of values, and the handles an operation holds *)
Module typing.

(** The value-type bit of a boxed value's dynamic type. *)
Definition value_type (v : value) : MetaType :=
  match v with
  | VBool _ => variables.MetaBool
  | VInt64 _ => variables.MetaInt
  | VFloat64 _ => variables.MetaFloat
  | VString _ => variables.MetaString
  end.

(** The identifiers whose Valuer lives in a platform specific file. *)
Definition platform_specific (vid : VariableType) : bool :=
  (vid =? variables.VarFileHidden) || (vid =? variables.VarFileSystem)
  || (vid =? variables.VarFileCompressed) || (vid =? variables.VarFileEncrypted)
  || (vid =? variables.VarProcessSessionId).

(** The name under which an event defines a value, if it defines one. *)
Definition defined_name {Dh : Type} (ev : variables.event Dh) : option string :=
  match ev with
  | variables.EvDefine _ name _ _ => Some name
  | variables.EvHook _ _ _ _ => None
  end.

End typing.

(** ** Recording what a compile operation acquires and releases *)
Module resources.

Inductive event (Compiler File : Type) : Type :=
  | EvNewCompiler (c : Compiler)
  | EvDestroy (c : Compiler)
  | EvOpen (f : File)
  | EvClose (f : File).
Arguments EvNewCompiler {Compiler File} c.
Arguments EvDestroy {Compiler File} c.
Arguments EvOpen {Compiler File} f.
Arguments EvClose {Compiler File} f.

Section Recording.
Context {Compiler Rules File Parser W : Type}.
Context (E : gora.Environment Compiler Rules File Parser W).
Local Abbreviation log := (list (event Compiler File)).

(** A call that acquires and releases nothing: the log is kept. *)
Definition keep {A : Type} (f : W -> A * W) (wl : W * log) : A * (W * log) :=
  let '(a, w') := f (fst wl) in (a, (w', snd wl)).

(** The environment [E], with a log of the compilers created and
    destroyed and of the files opened (successfully) and closed. *)
Definition recEnvironment
    : gora.Environment Compiler Rules File Parser (W * log) :=
  {| gora.yara_NewCompiler := fun wl =>
       match gora.yara_NewCompiler E (fst wl) with
       | (inl c, w') => (inl c, (w', (snd wl ++ [EvNewCompiler c])%list))
       | (inr err, w') => (inr err, (w', snd wl))
       end;
     gora.Compiler_Destroy := fun c wl =>
       (gora.Compiler_Destroy E c (fst wl), (snd wl ++ [EvDestroy c])%list);
     gora.Compiler_DefineVariable := fun c name v =>
       keep (gora.Compiler_DefineVariable E c name v);
     gora.Compiler_AddString := fun c rule ns => keep (gora.Compiler_AddString E c rule ns);
     gora.Compiler_AddFile := fun c f ns => keep (gora.Compiler_AddFile E c f ns);
     gora.Compiler_GetRules := fun c => keep (gora.Compiler_GetRules E c);
     gora.Compiler_Errors := fun c wl => gora.Compiler_Errors E c (fst wl);
     gora.Parser_new := gora.Parser_new E;
     gora.ParseFromReader := fun parser r => keep (gora.ParseFromReader E parser r);
     gora.Includes := gora.Includes E;
     gora.Parser_Variables := gora.Parser_Variables E;
     gora.os_Stat := fun path => keep (gora.os_Stat E path);
     gora.os_Open := fun path wl =>
       match gora.os_Open E path (fst wl) with
       | (inl f, w') => (inl f, (w', (snd wl ++ [EvOpen f])%list))
       | (inr err, w') => (inr err, (w', snd wl))
       end;
     gora.File_Close := fun f wl =>
       (gora.File_Close E f (fst wl), (snd wl ++ [EvClose f])%list);
     gora.File_Stat := fun f => keep (gora.File_Stat E f);
     gora.File_Readdirnames := fun f => keep (gora.File_Readdirnames E f);
     gora.File_Seek_start := fun f wl => (gora.File_Seek_start E f (fst wl), snd wl);
     gora.File_Name := gora.File_Name E;
     gora.strings_EqualFold := gora.strings_EqualFold E |}.

(** A result of the recording environment, without its log. *)
Definition erase {A : Type} (x : A * (W * log)) : A * W := (fst x, fst (snd x)).

End Recording.

Section Logs.
Context {Compiler File : Type}.

Definition created (l : list (event Compiler File)) : list Compiler :=
  flat_map (fun ev => match ev with EvNewCompiler c => [c] | _ => [] end) l.

Definition destroyed (l : list (event Compiler File)) : list Compiler :=
  flat_map (fun ev => match ev with EvDestroy c => [c] | _ => [] end) l.

Definition opened (l : list (event Compiler File)) : list File :=
  flat_map (fun ev => match ev with EvOpen f => [f] | _ => [] end) l.

Definition closed (l : list (event Compiler File)) : list File :=
  flat_map (fun ev => match ev with EvClose f => [f] | _ => [] end) l.

(** A stretch of the log with no compiler event in which every file
    opened is closed, but for the files [held]. *)
Definition files_only (evs : list (event Compiler File)) (held : list File) : Prop :=
  created evs = [] /\ destroyed evs = []
  /\ opened evs ≡ₚ (closed evs ++ held)%list.

(** Everything acquired is released: the files closed are the files
    opened, each as often as it was opened, and the compilers destroyed
    are the compilers created, at most one. *)
Definition released (evs : list (event Compiler File)) : Prop :=
  opened evs ≡ₚ closed evs
  /\ created evs = destroyed evs
  /\ (length (created evs) <= 1)%nat.

End Logs.

End resources.

(** ** The selector as Go stores it: slices over backing arrays

    Variables.Variables and Variables.Copy (variables.go) allocate; here
    a slice is a backing array in a heap and a length. *)
Module slices.

Record slice : Type := { array : positive; len : nat }.

Local Abbreviation heap := (gmap positive (list VariableType)).

Definition backing (h : heap) (s : slice) : list VariableType :=
  default [] (h !! array s).

(** The elements s[0], ..., s[len-1]. *)
Definition elems (h : heap) (s : slice) : list VariableType :=
  take (len s) (backing h s).

(** make([]VariableType, n): a new array of n zeros. *)
Definition make (n : nat) (h : heap) : slice * heap :=
  let a := fresh (dom h) in
  ({| array := a; len := n |}, <[a := replicate n 0]> h).

(** copy(dst, src): the first min(len(dst), len(src)) elements. *)
Definition copy (dst src : slice) (h : heap) : heap :=
  let n := Nat.min (len dst) (len src) in
  <[array dst := (take n (elems h src) ++ drop n (backing h dst))%list]> h.

(** s[i] = v; out of range it panics ([None]). *)
Definition store (s : slice) (i : nat) (v : VariableType) (h : heap) : option heap :=
  if (i <? len s)%nat then Some (<[array s := <[i := v]> (backing h s)]> h) else None.

Record Variables_ : Type := { list_ : slice }.

Definition Variables (vr : Variables_) (h : heap) : slice * heap :=
  let '(list, h1) := make (len (list_ vr)) h in
  (list, copy list (list_ vr) h1).

Definition Copy (vr : Variables_) (h : heap) : Variables_ * heap :=
  let '(list, h') := Variables vr h in
  ({| list_ := list |}, h').

(** A slice of the heap: its array is allocated and long enough. *)
Definition allocated (h : heap) (s : slice) : Prop :=
  exists data, h !! array s = Some data /\ (len s <= length data)%nat.

(** A selector of three identifiers in a heap of one array. *)
Definition sample_heap : heap := {[ 1%positive := [1; 18; 5] ]}.
Definition sample_selector : Variables_ :=
  {| list_ := {| array := 1; len := 3 |} |}.

End slices.

(** ** More instances of the collaborators *)
Module samples.

(** strings.EqualFold on ASCII letters. *)
Definition lower (c : ascii) : ascii :=
  let n := nat_of_ascii c in
  if (65 <=? n)%nat && (n <=? 90)%nat then ascii_of_nat (n + 32) else c.

Fixpoint EqualFold (s t : string) : bool :=
  match s, t with
  | EmptyString, EmptyString => true
  | String a s', String b t' => Ascii.eqb (lower a) (lower b) && EqualFold s' t'
  | _, _ => false
  end.

(** A file system in which every path opens, as a directory that
    lists [names] and is no regular file; a handle is its path. *)
Definition listing_environment (names : list string)
    : gora.Environment unit unit string (list string * list VariableType)
        (list (string * value)) :=
  {| gora.yara_NewCompiler := fun w => (inl tt, w);
     gora.Compiler_Destroy := fun _ w => w;
     gora.Compiler_DefineVariable := demo.definer [];
     gora.Compiler_AddString := fun _ _ _ w => (None, w);
     gora.Compiler_AddFile := fun _ _ _ w => (None, w);
     gora.Compiler_GetRules := fun _ w => (Some tt, None, w);
     gora.Compiler_Errors := fun _ _ => [];
     gora.Parser_new := ([], []);
     gora.ParseFromReader := fun parser _ w => (None, parser, w);
     gora.Includes := fst;
     gora.Parser_Variables := snd;
     gora.os_Stat := fun _ w =>
       (inl {| gora.IsDir := true; gora.Mode := (2 ^ 31 + 493)%Z |}, w);
     gora.os_Open := fun path w => (inl path, w);
     gora.File_Close := fun _ w => w;
     gora.File_Stat := fun _ w =>
       (inl {| gora.IsDir := true; gora.Mode := (2 ^ 31 + 493)%Z |}, w);
     gora.File_Readdirnames := fun _ w => (names, None, w);
     gora.File_Seek_start := fun _ w => w;
     gora.File_Name := fun f => f;
     gora.strings_EqualFold := EqualFold |}.

(** A scan of a directory with mode dr-xr-xr-x. *)
Definition readonly_scan : variables.ScanInfo unit unit :=
  {| variables.Context_ := tt;
     variables.FilePath := "/srv/data";
     variables.FileInfo :=
       Some {| variables.Mode := (2 ^ 31 + 365)%Z;
               variables.ModTime := tt;
               variables.times_Get :=
                 {| variables.AccessTime := tt;
                    variables.HasChangeTime := true;
                    variables.ChangeTime := tt;
                    variables.HasBirthTime := false;
                    variables.BirthTime := tt |} |};
     variables.Pid := 0;
     variables.ProcessInfo := None |}.

End samples.

(** * Properties *)

(** ** The registry *)

Import variables.

(** The identifiers 1 .. 25, by enumeration. *)
Lemma valid_cases (v : VariableType) :
  spec.valid v -> v ∈ (N.of_nat <$> seq 1 25).
Proof.
  intros [Hlo Hhi]. unfold VarProcessCommandLine in Hhi.
  replace v with (N.of_nat (N.to_nat v)) by lia.
  apply list_elem_of_fmap_2, elem_of_seq. lia.
Qed.

Lemma valid_Forall (P : VariableType -> Prop) :
  Forall P (N.of_nat <$> seq 1 25) -> forall v, spec.valid v -> P v.
Proof.
  intros HP v Hv. rewrite Forall_forall in HP. apply HP, valid_cases, Hv.
Qed.

(** Every valid identifier carries exactly one value-type bit and at
    least one applicability bit. *)
Lemma valid_meta (v : VariableType) :
  spec.valid v ->
  spec.zero_of_type (N.land (Meta v) spec.typeBits) <> None
  /\ N.land (Meta v) MetaFileProcess <> 0.
Proof.
  revert v. apply valid_Forall.
  let l := eval vm_compute in (N.of_nat <$> seq 1 25) in
  change (N.of_nat <$> seq 1 25) with l.
  repeat (apply Forall_cons; split; [by vm_compute|]). constructor.
Qed.

(** Outside the table Meta is 0, and so is the metadata of "none". *)
Lemma Meta_invalid (v : VariableType) : ~ spec.valid v -> Meta v = 0.
Proof.
  intros Hv. unfold Meta. destruct (v <? typeEnd) eqn:Hlt; [|done].
  apply N.ltb_lt in Hlt. unfold typeEnd in Hlt.
  assert (v = 0) as -> by (unfold spec.valid, VarProcessCommandLine in Hv; lia).
  reflexivity.
Qed.

Lemma applicable_valid (metaMask : MetaType) (v : VariableType) :
  spec.applicable metaMask v -> spec.valid v.
Proof.
  intros Ha. destruct (decide (spec.valid v)) as [|Hn]; [done|].
  unfold spec.applicable in Ha. rewrite (Meta_invalid v Hn) in Ha. done.
Qed.

(** List() is the indices of the slice varNames[1:]. *)
Lemma List_value : List = N.of_nat <$> seq 0 25.
Proof. by vm_compute. Qed.

Lemma List_omits_last : VarProcessCommandLine ∉ List.
Proof.
  rewrite List_value. intros Hin. apply list_elem_of_fmap in Hin as (n & Hn & Hin).
  apply elem_of_seq in Hin. unfold VarProcessCommandLine in Hn. lia.
Qed.

(** C1. List() returns the indices of the slice varNames[1:], that is
    0 .. 24: the reserved "none" identifier 0 is in the result and the
    last registered identifier, process_command_line (25), is not.  The
    result has no duplicates and is ascending, but it is not the
    sequence of valid identifiers 1 .. 25. *)
Theorem List_is_indices_of_tail :
  List = (N.of_nat <$> seq 0 25)
  /\ (0 ∈ List)
  /\ (VarProcessCommandLine ∉ List)
  /\ spec.valid VarProcessCommandLine
  /\ (~ spec.valid 0)
  /\ NoDup List
  /\ List <> (N.of_nat <$> seq 1 25).
Proof.
  split; [exact List_value|].
  split; [rewrite List_value; apply list_elem_of_fmap; exists 0%nat;
          split; [done|apply elem_of_seq; lia]|].
  split; [exact List_omits_last|].
  split; [unfold spec.valid, VarProcessCommandLine; lia|].
  split; [unfold spec.valid; lia|].
  split.
  { rewrite List_value. apply NoDup_fmap_2; [intros a b; lia|apply NoDup_seq]. }
  rewrite List_value. discriminate.
Qed.

(** ** The selector *)

Section Selector.
Implicit Types (vars acc : list VariableType) (vmap : gset VariableType).

(** The loop of setVariables appends to [acc] the part of
    [spec.Build vars] that [acc] does not hold yet, once [vmap] is the
    set of elements of [acc]. *)
Lemma setVariables_loop_spec vars metaMask acc vmap :
  (forall v, v ∈ vmap <-> v ∈ acc) ->
  setVariables_loop vars metaMask acc vmap
  = (acc ++ filter (fun v => v ∉ acc) (spec.Build vars metaMask))%list.
Proof.
  unfold spec.Build. revert acc vmap.
  induction vars as [|vid vars IH]; intros acc vmap Hmap; simpl.
  { by rewrite app_nil_r. }
  rewrite !list_filter_filter.
  destruct (decide (vid ∈ vmap)) as [Hin|Hnin].
  - rewrite (IH _ _ Hmap), list_filter_filter.
    rewrite filter_cons_False by (intros [Hn _]; apply Hn, Hmap, Hin).
    rewrite list_filter_filter. f_equal. apply list_filter_iff.
    intros x. split; [|naive_solver].
    intros [Hx Ha]. repeat split; try done.
    intros ->. apply Hx, Hmap, Hin.
  - destruct (N.land (Meta vid) metaMask =? 0) eqn:Hmeta; simpl.
    + apply N.eqb_eq in Hmeta.
      rewrite (IH _ _ Hmap), list_filter_filter.
      rewrite filter_cons_False by (intros [_ Ha]; apply Ha, Hmeta).
      rewrite list_filter_filter. f_equal. apply list_filter_iff.
      intros x. split; [|naive_solver].
      intros [Hx Ha]. repeat split; try done.
      intros ->. apply Ha, Hmeta.
    + apply N.eqb_neq in Hmeta.
      rewrite (IH (acc ++ [vid])%list ({[vid]} ∪ vmap)).
      2:{ intros v. rewrite elem_of_union, elem_of_singleton, elem_of_app,
            list_elem_of_singleton, Hmap. tauto. }
      rewrite filter_cons_True.
      2:{ split; [|exact Hmeta]. intros Hacc. apply Hnin, Hmap, Hacc. }
      rewrite <- app_assoc. simpl. do 2 f_equal.
      rewrite !list_filter_filter. apply list_filter_iff.
      intros x. rewrite elem_of_app, list_elem_of_singleton. tauto.
Qed.

Lemma setVariables_spec vr vars metaMask :
  list_ (setVariables vr vars metaMask) = spec.Build vars metaMask.
Proof.
  unfold setVariables. simpl.
  rewrite (setVariables_loop_spec vars metaMask [] ∅) by set_solver.
  simpl. induction (spec.Build vars metaMask) as [|x l IH]; [done|].
  rewrite filter_cons_True by apply not_elem_of_nil. by rewrite IH.
Qed.

Lemma elem_of_dedup_first l (x : VariableType) : x ∈ spec.dedup_first l <-> x ∈ l.
Proof.
  induction l as [|y l IH]; simpl; [done|].
  rewrite !elem_of_cons, list_elem_of_filter, IH.
  destruct (decide (x = y)); naive_solver.
Qed.

Lemma NoDup_dedup_first l : NoDup (spec.dedup_first l).
Proof.
  induction l as [|y l IH]; simpl; [constructor|].
  apply NoDup_cons. split; [|by apply NoDup_filter].
  rewrite list_elem_of_filter. naive_solver.
Qed.

(** A filtered list split at an element: the split comes from one of
    the list itself. *)
Lemma filter_split (P : VariableType -> Prop) `{!forall x, Decision (P x)} l r1 a r2 :
  filter P l = (r1 ++ a :: r2)%list ->
  exists s1 s2, l = (s1 ++ a :: s2)%list /\ filter P s1 = r1 /\ filter P s2 = r2.
Proof.
  revert r1. induction l as [|x l IH]; intros r1 Hf.
  { rewrite filter_nil in Hf. by destruct r1. }
  rewrite filter_cons in Hf. destruct (decide (P x)) as [HP|HP].
  - destruct r1 as [|y r1]; simpl in Hf; injection Hf as <- Hf.
    + exists [], l. by rewrite filter_nil.
    + destruct (IH _ Hf) as (s1 & s2 & -> & <- & <-).
      exists (x :: s1), s2. by rewrite filter_cons_True.
  - destruct (IH _ Hf) as (s1 & s2 & -> & <- & <-).
    exists (x :: s1), s2. by rewrite filter_cons_False.
Qed.

(** Order of first occurrence: when [a] comes before [b] in the built
    selector, the first [a] of the candidates comes before every [b]. *)
Lemma Build_first_occurrence vars metaMask r1 a r2 b :
  spec.Build vars metaMask = (r1 ++ a :: r2)%list -> b ∈ r2 ->
  exists l1 l2, vars = (l1 ++ a :: l2)%list /\ (a ∉ l1) /\ (b ∉ l1).
Proof.
  unfold spec.Build. revert r1 r2.
  induction vars as [|x vars IH]; intros r1 r2 Hb Hin; simpl in Hb.
  { rewrite filter_nil in Hb. by destruct r1. }
  assert (Hrest : forall r1',
    filter (spec.applicable metaMask) (filter (fun y => y ≠ x) (spec.dedup_first vars))
      = (r1' ++ a :: r2)%list ->
    exists l1 l2, (x :: vars) = (l1 ++ a :: l2)%list /\ (a ∉ l1) /\ (b ∉ l1)).
  { intros r1' Hf.
    assert (Hswap :
      filter (spec.applicable metaMask) (filter (fun y => y ≠ x) (spec.dedup_first vars))
      = filter (fun y => y ≠ x) (filter (spec.applicable metaMask) (spec.dedup_first vars))).
    { rewrite !list_filter_filter. apply list_filter_iff. intros; tauto. }
    rewrite Hswap in Hf.
    assert (a ≠ x /\ b ≠ x) as [Hax Hbx].
    { assert (Ha : a ∈ (r1' ++ a :: r2)%list) by set_solver.
      assert (Hb' : b ∈ (r1' ++ a :: r2)%list) by set_solver.
      rewrite <- Hf in Ha, Hb'. apply list_elem_of_filter in Ha, Hb'. tauto. }
    apply filter_split in Hf as (s1 & s2 & Hs & _ & Hs2).
    assert (Hbs : b ∈ s2).
    { rewrite <- Hs2 in Hin. by apply list_elem_of_filter in Hin as [_ ?]. }
    destruct (IH _ _ Hs Hbs) as (l1 & l2 & -> & Ha1 & Hb1).
    exists (x :: l1), l2. rewrite !not_elem_of_cons. tauto. }
  rewrite filter_cons in Hb. destruct (decide (spec.applicable metaMask x)).
  - destruct r1 as [|y r1]; simpl in Hb; injection Hb as <- Hb.
    + exists [], vars. set_solver.
    + by apply (Hrest r1).
  - by apply (Hrest r1).
Qed.

End Selector.

(** C3. Building the selector keeps exactly the candidates whose
    metadata intersects the target mask, drops later duplicates, and
    orders the survivors by first occurrence in the input: it is the
    specification's Build.  For candidates [X; X; Y] with X process-only
    and Y for both targets, the file build is [Y] and the process build
    is [X; Y]. *)
Theorem Init_variables_build (vr : Variables_) (vars : list VariableType) :
  let file := list_ (InitFileVariables vr vars) in
  let process := list_ (InitProcessVariables vr vars) in
  (file = spec.Build vars MetaFile /\ process = spec.Build vars MetaProcess)
  /\ (forall v, v ∈ file <-> v ∈ vars /\ N.land (Meta v) MetaFile ≠ 0)
  /\ (forall v, v ∈ process <-> v ∈ vars /\ N.land (Meta v) MetaProcess ≠ 0)
  /\ (NoDup file /\ NoDup process)
  /\ (forall r1 a r2 b, (file = (r1 ++ a :: r2)%list \/ process = (r1 ++ a :: r2)%list) ->
        b ∈ r2 -> exists l1 l2, vars = (l1 ++ a :: l2)%list /\ (a ∉ l1) /\ (b ∉ l1))
  /\ (Meta VarProcessId = N.lor MetaProcess MetaInt
      /\ Meta VarOs = N.lor MetaFileProcess MetaString
      /\ list_ (InitFileVariables vr [VarProcessId; VarProcessId; VarOs]) = [VarOs]
      /\ list_ (InitProcessVariables vr [VarProcessId; VarProcessId; VarOs])
         = [VarProcessId; VarOs]).
Proof.
  intros file process. subst file process.
  unfold InitFileVariables, InitProcessVariables.
  rewrite !setVariables_spec.
  split; [done|].
  split; [intros v; unfold spec.Build;
          rewrite list_elem_of_filter, elem_of_dedup_first; unfold spec.applicable; tauto|].
  split; [intros v; unfold spec.Build;
          rewrite list_elem_of_filter, elem_of_dedup_first; unfold spec.applicable; tauto|].
  split; [split; apply NoDup_filter, NoDup_dedup_first|].
  split.
  { intros r1 a r2 b [H|H] Hb; eapply Build_first_occurrence; eauto. }
  repeat split; by vm_compute.
Qed.

(** ** The value resolver: defaults *)

Section DefaultValue.
Context {Dh W : Type}.

Lemma defineDefaultValue_valid (D : VariableDefiner Dh W) vid def w :
  spec.valid vid ->
  defineDefaultValue vid def w = D def (String_ vid) (spec.zero_value vid) w.
Proof.
  intros Hv. revert def w. revert vid Hv.
  apply (valid_Forall (fun vid => forall def w,
    defineDefaultValue vid def w = D def (String_ vid) (spec.zero_value vid) w)).
  let l := eval vm_compute in (N.of_nat <$> seq 1 25) in
  change (N.of_nat <$> seq 1 25) with l.
  repeat (apply Forall_cons; split; [intros; reflexivity|]). constructor.
Qed.

Lemma defineDefaultValue_invalid (D : VariableDefiner Dh W) vid def w :
  ~ spec.valid vid ->
  defineDefaultValue vid def w = (Some (ErrUnknownVariable vid), w).
Proof.
  intros Hv. unfold defineDefaultValue. by rewrite (Meta_invalid vid Hv).
Qed.

Lemma typeBits_invalid vid : ~ spec.valid vid -> N.land (Meta vid) spec.typeBits = 0.
Proof. intros Hv. by rewrite (Meta_invalid vid Hv). Qed.

End DefaultValue.

Section Defaults.
Context {Dh W : Type}.

(** The defaults loop under a recording definer: the log grows by the
    calls made, the result and the world are those of the plain run,
    and the world is the replay of the calls. *)
Lemma DefineCompilerVariables_loop_rec (D : VariableDefiner Dh W) compiler l :
  forall w log0 res w' log1,
    DefineCompilerVariables_loop (D := recDefiner D) l compiler (w, log0)
      = (res, (w', log1)) ->
    exists log, log1 = (log0 ++ log)%list
      /\ DefineCompilerVariables_loop (D := D) l compiler w = (res, w')
      /\ w' = spec.replay D log w
      /\ spec.compiler_post compiler l res log.
Proof.
  induction l as [|vid l IH]; intros w log0 res w' log1 Hrun;
    cbn [DefineCompilerVariables_loop] in *.
  { injection Hrun as <- <- <-. exists []. by rewrite app_nil_r. }
  destruct (decide (spec.valid vid)) as [Hv|Hv].
  - rewrite (defineDefaultValue_valid _ _ _ _ Hv) in Hrun.
    rewrite (defineDefaultValue_valid _ _ _ _ Hv).
    unfold recDefiner in Hrun at 1. simpl in Hrun.
    destruct (D compiler (String_ vid) (spec.zero_value vid) w) as [[e|] w1] eqn:HD.
    + injection Hrun as <- <- <-. eexists. split; [done|].
      split; [done|]. split; [simpl; by rewrite HD|].
      exists [], vid, l. split; [done|]. by left.
    + apply IH in Hrun as (log & -> & Hplain & Hw & Hpost).
      exists (EvDefine compiler (String_ vid) (spec.zero_value vid) None :: log).
      split; [by rewrite <- app_assoc|]. split; [done|].
      split; [simpl; by rewrite HD|].
      destruct res as [e|]; simpl in *.
      * destruct Hpost as (l1 & v & l2 & -> & Hlog).
        exists (vid :: l1), v, l2. split; [done|].
        destruct Hlog as [->|(? & ? & ->)]; [by left|by right].
      * by rewrite Hpost.
  - rewrite (defineDefaultValue_invalid _ _ _ _ Hv) in Hrun.
    rewrite (defineDefaultValue_invalid _ _ _ _ Hv).
    injection Hrun as <- <- <-. exists []. rewrite app_nil_r.
    do 3 (split; [done|]).
    exists [], vid, l. split; [done|]. right. by rewrite typeBits_invalid.
Qed.

(** Testing one value-type bit of the metadata is testing it in the
    four value-type bits. *)
Lemma land_typeBits (m b : MetaType) :
  N.land spec.typeBits b = b -> N.land m b = N.land (N.land m spec.typeBits) b.
Proof. intros Hb. by rewrite <- N.land_assoc, Hb. Qed.

Lemma defineDefaultValue_by_type (D : VariableDefiner Dh W) vid def w :
  let t := N.land (Meta vid) spec.typeBits in
  (t = MetaString ->
     defineDefaultValue vid def w = D def (String_ vid) (VString "") w)
  /\ (t = MetaInt ->
        defineDefaultValue vid def w = D def (String_ vid) (VInt64 0) w)
  /\ (t = MetaBool ->
        defineDefaultValue vid def w = D def (String_ vid) (VBool false) w)
  /\ (t = MetaFloat ->
        defineDefaultValue vid def w
        = D def (String_ vid) (VFloat64 (S754_zero false)) w)
  /\ (t = 0 -> defineDefaultValue vid def w = (Some (ErrUnknownVariable vid), w)).
Proof.
  intros t. subst t. unfold defineDefaultValue.
  rewrite (land_typeBits (Meta vid) MetaString), (land_typeBits (Meta vid) MetaInt),
    (land_typeBits (Meta vid) MetaBool), (land_typeBits (Meta vid) MetaFloat)
    by reflexivity.
  repeat split; intros ->; reflexivity.
Qed.

End Defaults.

(** C7. DefineCompilerVariables defines, in selector order, the zero
    value of each selected identifier's value type ("" for a string, 0
    for an integer, false for a boolean, 0.0 for a float); it stops at
    the first definition the acceptor rejects and returns that error,
    leaving the earlier definitions in place (the world is the replay
    of the calls made, the failed one included); an identifier with
    none of the four value-type bits gives the unknown-variable error
    and no call. *)
Theorem DefineCompilerVariables_zero_values {Dh W : Type} (D : VariableDefiner Dh W)
    (vr : Variables_) (compiler : Dh) (w : W)
    (res : option error) (w' : W) (log : list (event Dh)) :
  DefineCompilerVariables (D := recDefiner D) vr compiler (w, []) = (res, (w', log)) ->
  (forall vid def w0,
     let t := N.land (Meta vid) spec.typeBits in
     (t = MetaString ->
        defineDefaultValue vid def w0 = D def (String_ vid) (VString "") w0)
     /\ (t = MetaInt ->
           defineDefaultValue vid def w0 = D def (String_ vid) (VInt64 0) w0)
     /\ (t = MetaBool ->
           defineDefaultValue vid def w0 = D def (String_ vid) (VBool false) w0)
     /\ (t = MetaFloat ->
           defineDefaultValue vid def w0
           = D def (String_ vid) (VFloat64 (S754_zero false)) w0)
     /\ (t = 0 ->
           defineDefaultValue vid def w0 = (Some (ErrUnknownVariable vid), w0)))
  /\ DefineCompilerVariables (D := D) vr compiler w = (res, w')
  /\ w' = spec.replay D log w
  /\ match res with
     | None =>
         log = map (fun vid => EvDefine compiler (String_ vid) (spec.zero_value vid) None)
                   (list_ vr)
     | Some e =>
         exists l1 vid l2, list_ vr = (l1 ++ vid :: l2)%list
           /\ (log = (map (fun vid => EvDefine compiler (String_ vid)
                                        (spec.zero_value vid) None) l1
                      ++ [EvDefine compiler (String_ vid) (spec.zero_value vid) (Some e)])%list
               \/ (N.land (Meta vid) spec.typeBits = 0
                   /\ e = ErrUnknownVariable vid
                   /\ log = map (fun vid => EvDefine compiler (String_ vid)
                                              (spec.zero_value vid) None) l1))
     end.
Proof.
  intros Hrun. split; [intros vid def w0; apply defineDefaultValue_by_type|].
  apply DefineCompilerVariables_loop_rec in Hrun as (log' & Hlog & Hplain & Hw & Hpost).
  simpl in Hlog. subst log'. auto.
Qed.

(** ** The value resolver: computed values *)

Section Resolution.
Context {Time GoContext : Type} (X : Externals Time GoContext).

(** Only the identifiers 1 .. 25 have a Valuer: the call panics on
    "none" (the nil Valuer) and past the array. *)
Lemma Value_valid vid (sCtx : ScanInfo Time GoContext) :
  Value X vid sCtx <> Panic -> spec.valid vid.
Proof.
  intros Hv. destruct (decide (spec.valid vid)) as [|Hn]; [done|].
  exfalso. apply Hv. unfold Value.
  unfold spec.valid, VarProcessCommandLine in Hn.
  destruct (decide (vid = 0)) as [->|Hz]; [reflexivity|].
  rewrite lookup_ge_None_2; [done|]. simpl. lia.
Qed.

Context {Dh W : Type} (D : VariableDefiner Dh W).
Context (sCtx : ScanContext Time GoContext Dh W) (scanner : Dh).

Lemma scanner_post_cons vid l res log :
  Value X vid sCtx <> Panic ->
  spec.scanner_post X sCtx scanner l res log ->
  spec.scanner_post X sCtx scanner (vid :: l) res
    (spec.resolved_events scanner vid (Value X vid sCtx) ++ log)%list.
Proof.
  intros Hnp. destruct res as [[E|]|]; simpl.
  - intros (l1 & v & l2 & val & err & last & -> & Hval & -> & Hlast).
    exists (vid :: l1), v, l2, val, err, last.
    split; [done|]. split; [done|]. split; [|done].
    unfold spec.scanner_events. simpl. by rewrite <- app_assoc.
  - intros [-> Hhooks]. split; [done|].
    rewrite List.filter_app, Hhooks. unfold spec.scanner_hooks. simpl. f_equal.
    destruct (Value X vid sCtx) as [[[v|] [err|]]|]; done.
  - intros (l1 & v & l2 & -> & Hval & ->).
    exists (vid :: l1), v, l2. done.
Qed.

(** The resolution loop under a recording definer and context. *)
Lemma DefineScannerVariables_loop_rec l :
  forall w log0 res w' log1,
    DefineScannerVariables_loop X (D := recDefiner D) l (recContext sCtx) scanner (w, log0)
      = (res, (w', log1)) ->
    exists log, log1 = (log0 ++ log)%list
      /\ DefineScannerVariables_loop X (D := D) l sCtx scanner w = (res, w')
      /\ spec.scanner_post X sCtx scanner l res log.
Proof.
  induction l as [|vid l IH]; intros w log0 res w' log1 Hrun;
    cbn [DefineScannerVariables_loop] in *.
  { injection Hrun as <- <- <-. exists []. by rewrite app_nil_r. }
  change (Value X vid (recContext sCtx)) with (Value X vid sCtx) in Hrun.
  destruct (Value X vid sCtx) as [[v err]|] eqn:Hval.
  2:{ injection Hrun as <- <- <-. exists []. rewrite app_nil_r.
      do 2 (split; [done|]). exists [], vid, l. done. }
  assert (Hnp : Value X vid sCtx <> Panic) by (by rewrite Hval).
  pose proof (Value_valid _ _ Hnp) as Hv.
  pose proof (scanner_post_cons vid l) as Hcons. rewrite Hval in Hcons.
  rewrite !(defineDefaultValue_valid _ _ _ _ Hv) in *.
  assert (Hstep : forall ev w1 lg,
    DefineScannerVariables_loop X (D := recDefiner D) l (recContext sCtx) scanner
      (w1, (log0 ++ ev)%list) = (res, (w', lg)) ->
    spec.resolved_events scanner vid (Ret (v, err)) = ev ->
    exists log, lg = (log0 ++ log)%list
      /\ DefineScannerVariables_loop X (D := D) l sCtx scanner w1 = (res, w')
      /\ spec.scanner_post X sCtx scanner (vid :: l) res log).
  { intros ev w1 lg Hr Hev. apply IH in Hr as (log & -> & Hplain & Hpost).
    exists (ev ++ log)%list. split; [by rewrite app_assoc|]. split; [done|].
    rewrite <- Hev. by apply Hcons. }
  destruct v as [val|], err as [er|].
  - (* a value and an error: the default, then the hook *)
    unfold recDefiner in Hrun at 1. simpl in Hrun.
    destruct (D scanner (String_ vid) (spec.zero_value vid) w) as [[e|] w1] eqn:HD.
    + injection Hrun as <- <- <-. eexists. split; [done|]. split; [done|].
      exists [], vid, l, (Some val), (Some er). eexists. do 3 (split; [done|]).
      right; left. exists e. split; [by left|done].
    + simpl in Hrun.
      destruct (HandleValueError sCtx scanner vid er w1) as [[e'|] w2] eqn:HH.
      * injection Hrun as <- <- <-. eexists. split; [by rewrite <- app_assoc|].
        split; [done|].
        exists [], vid, l, (Some val), (Some er). eexists. do 3 (split; [done|]).
        right; right. by exists er.
      * rewrite <- app_assoc in Hrun. by apply Hstep in Hrun.
  - (* a value and no error: it is defined *)
    unfold DefineVariable in *. unfold recDefiner in Hrun at 1. simpl in Hrun.
    destruct (D scanner (String_ vid) val w) as [[e|] w1] eqn:HD.
    + injection Hrun as <- <- <-. eexists. split; [done|]. split; [done|].
      exists [], vid, l, (Some val), None. eexists. do 3 (split; [done|]).
      left. by exists val.
    + by apply Hstep in Hrun.
  - (* nil and an error: the default, then the hook *)
    unfold recDefiner in Hrun at 1. simpl in Hrun.
    destruct (D scanner (String_ vid) (spec.zero_value vid) w) as [[e|] w1] eqn:HD.
    + injection Hrun as <- <- <-. eexists. split; [done|]. split; [done|].
      exists [], vid, l, None, (Some er). eexists. do 3 (split; [done|]).
      right; left. exists e. split; [by left|done].
    + simpl in Hrun.
      destruct (HandleValueError sCtx scanner vid er w1) as [[e'|] w2] eqn:HH.
      * injection Hrun as <- <- <-. eexists. split; [by rewrite <- app_assoc|].
        split; [done|].
        exists [], vid, l, None, (Some er). eexists. do 3 (split; [done|]).
        right; right. by exists er.
      * rewrite <- app_assoc in Hrun. by apply Hstep in Hrun.
  - (* nil and no error: the default, no hook *)
    unfold recDefiner in Hrun at 1. simpl in Hrun.
    destruct (D scanner (String_ vid) (spec.zero_value vid) w) as [[e|] w1] eqn:HD.
    + injection Hrun as <- <- <-. eexists. split; [done|]. split; [done|].
      exists [], vid, l, None, None. eexists. do 3 (split; [done|]).
      right; left. exists e. split; [by right|done].
    + by apply Hstep in Hrun.
Qed.

End Resolution.

(** C2. DefineScannerVariables resolves the selected identifiers in
    selector order, in one pass.  A computed non-nil value with a nil
    error is defined under the identifier's name, and a failure of that
    definition is returned at once.  An error or a nil value makes the
    identifier's zero value be defined instead; if that definition fails
    its error is returned at once, joined to the computation error when
    there was one.  After a successful default definition the hook
    HandleValueError is called, once, with the scanner, the identifier
    and the computation error, exactly when that error was not nil; a
    non-nil error from the hook ends the pass and is returned.  A
    (nil, nil) computation gets the default and no hook call. *)
Theorem DefineScannerVariables_resolution {Time GoContext : Type}
    (X : Externals Time GoContext) {Dh W : Type} (D : VariableDefiner Dh W)
    (vr : Variables_) (sCtx : ScanContext Time GoContext Dh W) (scanner : Dh) (w : W)
    (res : outcome (option error)) (w' : W) (log : list (event Dh)) :
  DefineScannerVariables X (D := recDefiner D) vr (recContext sCtx) scanner (w, [])
    = (res, (w', log)) ->
  DefineScannerVariables X (D := D) vr sCtx scanner w = (res, w')
  /\ match res with
     | Ret None =>
         log = flat_map (fun vid => spec.resolved_events scanner vid (Value X vid sCtx))
                        (list_ vr)
         /\ List.filter spec.is_hook log
            = flat_map (fun vid => spec.hook_events scanner vid (Value X vid sCtx))
                       (list_ vr)
     | Ret (Some E) =>
         exists l1 vid l2 v err last,
           list_ vr = (l1 ++ vid :: l2)%list
           /\ Value X vid sCtx = Ret (v, err)
           /\ log = (flat_map (fun vid => spec.resolved_events scanner vid
                                            (Value X vid sCtx)) l1 ++ last)%list
           /\ ((exists val, v = Some val /\ err = None
                  /\ last = [EvDefine scanner (String_ vid) val (Some E)])
               \/ (exists e, (err <> None \/ v = None)
                     /\ last = [EvDefine scanner (String_ vid) (spec.zero_value vid) (Some e)]
                     /\ E = match err with Some er => ErrJoin er e | None => e end)
               \/ (exists er, err = Some er
                     /\ last = [EvDefine scanner (String_ vid) (spec.zero_value vid) None;
                                EvHook scanner vid er (Some E)]))
     | Panic =>
         exists l1 vid l2, list_ vr = (l1 ++ vid :: l2)%list
           /\ Value X vid sCtx = Panic
           /\ log = flat_map (fun vid => spec.resolved_events scanner vid
                                           (Value X vid sCtx)) l1
     end.
Proof.
  intros Hrun.
  apply DefineScannerVariables_loop_rec in Hrun as (log' & Hlog & Hplain & Hpost).
  simpl in Hlog. subst log'. split; [exact Hplain|exact Hpost].
Qed.

(** ** The computation routines *)

Section Routines.
Context {Time GoContext : Type} (X : Externals Time GoContext).
Implicit Types sCtx : ScanInfo Time GoContext.

(** The cleaned path of the scan context, "" when it has none. *)
Lemma varFilePathFunc_value sCtx :
  varFilePathFunc sCtx
  = Ret (Some (VString (if String.eqb (FilePath sCtx) "" then ""
                        else filepath.Clean (FilePath sCtx))), None).
Proof. unfold varFilePathFunc. by destruct (String.eqb (FilePath sCtx) ""). Qed.

(** The file-name and file-extension routines on the string the
    file-path routine returns. *)
Lemma varFileNameFunc_value sCtx :
  let s := if String.eqb (FilePath sCtx) "" then "" else filepath.Clean (FilePath sCtx) in
  varFileNameFunc sCtx
  = Ret (Some (VString (if String.eqb s "" then ""
                        else if String.eqb (filepath.Base s) "." then ""
                        else filepath.Base s)), None).
Proof.
  intros s. unfold varFileNameFunc. rewrite varFilePathFunc_value.
  cbn [assert_string]. fold s.
  destruct (String.eqb s "") eqn:Hs; [by apply String.eqb_eq in Hs as ->|].
  by destruct (String.eqb (filepath.Base s) ".").
Qed.

Lemma varFileExtensionFunc_value sCtx :
  let s := if String.eqb (FilePath sCtx) "" then "" else filepath.Clean (FilePath sCtx) in
  varFileExtensionFunc sCtx
  = Ret (Some (VString (if String.eqb s "" then ""
                        else if strings.HasPrefix s "."
                                && Nat.eqb (strings.CountByte s "."%char) 1
                        then ""
                        else strings.TrimPrefix (filepath.Ext s) ".")), None).
Proof.
  intros s. unfold varFileExtensionFunc. rewrite varFilePathFunc_value.
  cbn [assert_string]. fold s.
  destruct (String.eqb s "") eqn:Hs; [by apply String.eqb_eq in Hs as ->|].
  by destruct (strings.HasPrefix s "." && Nat.eqb (strings.CountByte s "."%char) 1).
Qed.


End Routines.

Section Returns.
Context {Time GoContext : Type} (X : Externals Time GoContext).
Context {Dh W : Type} (D : VariableDefiner Dh W).
Context (sCtx : ScanContext Time GoContext Dh W) (scanner : Dh).



End Returns.

(** C9. The process-path entry of the Valuers table is the file-path
    routine itself, so both variables compute the same value for every
    scan context: the cleaned file path, or "" when there is none. *)
Theorem process_path_is_file_path {Time GoContext : Type}
    (X : Externals Time GoContext) (sCtx : ScanInfo Time GoContext) :
  Valuers X !! N.to_nat VarProcessPath = Some (Some varFilePathFunc)
  /\ Valuers X !! N.to_nat VarFilePath = Some (Some varFilePathFunc)
  /\ Value X VarProcessPath sCtx = Value X VarFilePath sCtx
  /\ Value X VarFilePath sCtx
     = Ret (Some (VString (if String.eqb (FilePath sCtx) "" then ""
                           else filepath.Clean (FilePath sCtx))), None).
Proof.
  repeat split; try reflexivity.
  change (Value X VarFilePath sCtx) with (varFilePathFunc sCtx).
  apply varFilePathFunc_value.
Qed.

(** C10. The file-path routine always returns a non-nil string and a
    nil error.  So the type assertion p.(string) on its result succeeds,
    and the file-name and file-extension routines neither panic nor
    take their nil or error branch: they return what their string
    branches compute. *)
Theorem varFilePathFunc_string {Time GoContext : Type} (sCtx : ScanInfo Time GoContext) :
  exists s,
    varFilePathFunc sCtx = Ret (Some (VString s), None)
    /\ assert_string (Some (VString s)) = Ret s
    /\ varFileNameFunc sCtx
       = Ret (Some (VString (if String.eqb s "" then ""
                             else if String.eqb (filepath.Base s) "." then ""
                             else filepath.Base s)), None)
    /\ varFileExtensionFunc sCtx
       = Ret (Some (VString (if String.eqb s "" then ""
                             else if strings.HasPrefix s "."
                                     && Nat.eqb (strings.CountByte s "."%char) 1
                             then ""
                             else strings.TrimPrefix (filepath.Ext s) ".")), None).
Proof.
  eexists. split; [apply varFilePathFunc_value|]. split; [reflexivity|].
  split; [apply varFileNameFunc_value|apply varFileExtensionFunc_value].
Qed.

(** C6, as stated, fails.  The scan context demo.file_scan has no
    process introspection, yet the process-id routine returns its pid,
    42, and the process-path routine returns its (cleaned) file path. *)
Lemma process_id_and_path_are_not_nil :
  ProcessInfo demo.file_scan = None
  /\ Value demo.externals VarProcessId demo.file_scan = Ret (Some (VInt64 42), None)
  /\ Value demo.externals VarProcessId demo.file_scan <> Ret (None, None)
  /\ Value demo.externals VarProcessPath demo.file_scan
     = Ret (Some (VString "dir/.gitignore"), None)
  /\ Value demo.externals VarProcessPath demo.file_scan <> Ret (None, None).
Proof. by vm_compute. Qed.

(** C6, amended. With no process introspection (ProcessInfo() is nil)
    the parent-pid, user-name, process-name and command-line routines
    return (nil, nil); the process-id routine returns int64(Pid()) and
    the process-path routine returns the cleaned file path ("" when
    there is none), both with a nil error. *)
Theorem process_routines_without_ProcessInfo {Time GoContext : Type}
    (X : Externals Time GoContext) (sCtx : ScanInfo Time GoContext) :
  ProcessInfo sCtx = None ->
  Value X VarProcessParentId sCtx = Ret (None, None)
  /\ Value X VarProcessUserName sCtx = Ret (None, None)
  /\ Value X VarProcessName sCtx = Ret (None, None)
  /\ Value X VarProcessCommandLine sCtx = Ret (None, None)
  /\ Value X VarProcessId sCtx = Ret (Some (VInt64 (int64 (Pid sCtx))), None)
  /\ Value X VarProcessPath sCtx
     = Ret (Some (VString (if String.eqb (FilePath sCtx) "" then ""
                           else filepath.Clean (FilePath sCtx))), None).
Proof.
  intros Hnil.
  change (Value X VarProcessParentId sCtx) with (varProcessParentIdFunc sCtx).
  change (Value X VarProcessUserName sCtx) with (varProcessUserNameFunc sCtx).
  change (Value X VarProcessName sCtx) with (varProcessNameFunc sCtx).
  change (Value X VarProcessCommandLine sCtx) with (varProcessCommandLineFunc sCtx).
  change (Value X VarProcessId sCtx) with (varProcessIdFunc sCtx).
  change (Value X VarProcessPath sCtx) with (varFilePathFunc sCtx).
  unfold varProcessParentIdFunc, varProcessUserNameFunc, varProcessNameFunc,
    varProcessCommandLineFunc, varProcessIdFunc.
  rewrite Hnil, varFilePathFunc_value. done.
Qed.

Lemma process_routines_without_ProcessInfo_witness :
  Value demo.externals VarProcessParentId demo.file_scan = Ret (None, None)
  /\ Value demo.externals VarProcessUserName demo.file_scan = Ret (None, None)
  /\ Value demo.externals VarProcessName demo.file_scan = Ret (None, None)
  /\ Value demo.externals VarProcessCommandLine demo.file_scan = Ret (None, None)
  /\ Value demo.externals VarProcessId demo.file_scan
     = Ret (Some (VInt64 (int64 (Pid demo.file_scan))), None)
  /\ Value demo.externals VarProcessPath demo.file_scan
     = Ret (Some (VString (if String.eqb (FilePath demo.file_scan) "" then ""
                           else filepath.Clean (FilePath demo.file_scan))), None).
Proof.
  apply (process_routines_without_ProcessInfo demo.externals demo.file_scan).
  reflexivity.
Defined.

(** C4. The dotfile test of the file-extension routine looks at the
    whole cleaned path, not at its base name.  For the path
    dir/.gitignore the base name .gitignore starts with a dot and holds
    exactly one dot, yet the routine returns gitignore.  The three
    cases of the specification, which have no directory part, come out
    as stated: gz, "" and "". *)
Theorem varFileExtensionFunc_dotfile_in_directory :
  let ext (path : string) :=
    varFileExtensionFunc
      ({| Context_ := tt; FilePath := path; FileInfo := None; Pid := 0;
          ProcessInfo := None |} : ScanInfo unit unit) in
  (filepath.Base (filepath.Clean "dir/.gitignore") = ".gitignore"
   /\ strings.HasPrefix ".gitignore" "." = true
   /\ strings.CountByte ".gitignore" "."%char = 1%nat
   /\ ext "dir/.gitignore" = Ret (Some (VString "gitignore"), None))
  /\ ext "/home/user/.bashrc" = Ret (Some (VString "bashrc"), None)
  /\ (ext "archive.tar.gz" = Ret (Some (VString "gz"), None)
      /\ ext ".gitignore" = Ret (Some (VString ""), None)
      /\ ext "README" = Ret (Some (VString ""), None)).
Proof. by vm_compute. Qed.

(** ** The compile operations *)

Import gora.

Section CompileProperties.
Context {Compiler Rules Scanner File Parser W : Type}.
Context (E : Environment Compiler Rules File Parser W).
Implicit Types (c : Compiled Rules Scanner) (w : W) (target : ScanTarget).

(** fallbackAllVars latches: it ends true exactly when it started true
    or some parse left the parser with an include. *)
Lemma parseStrings_flag ruleNs : forall parser fb0 w parser' fb w',
  parseStrings E ruleNs parser fb0 w = (inr (parser', fb), w') ->
  fb = fb0 || existsb (spec.parsed.has_include E) (spec.parsed.of_strings E ruleNs parser w).
Proof.
  induction ruleNs as [|rule ruleNs IH]; intros parser fb0 w parser' fb w' Hp;
    simpl in Hp |- *.
  { injection Hp as <- <- <-. by rewrite orb_false_r. }
  destruct (ParseFromReader E parser (strings_NewReader (Rule rule)) w)
    as [[[err|] p1] w1]; [done|].
  apply IH in Hp as ->. simpl. unfold spec.parsed.has_include at 2.
  destruct (0 <? length (Includes E p1))%nat, fb0; simpl; rewrite ?orb_true_r; done.
Qed.

Lemma openFiles_flag paths : forall parser fb0 files w parser' fb files' w',
  openFiles E paths parser fb0 files w = (None, parser', fb, files', w') ->
  fb = fb0 || existsb (spec.parsed.has_include E) (spec.parsed.of_files E paths parser w).
Proof.
  induction paths as [|path paths IH]; intros parser fb0 files w parser' fb files' w' Hp;
    simpl in Hp |- *.
  { injection Hp as <- <- <- <-. by rewrite orb_false_r. }
  destruct (os_Open E path w) as [[f|err] w1]; [|done].
  destruct (File_Stat E f w1) as [[info|err] w2]; [|done].
  destruct (negb (IsRegular (Mode info))); [by apply IH in Hp|].
  destruct (ParseFromReader E parser (file_Reader f) w2) as [[[err|] p1] w3]; [done|].
  apply IH in Hp as ->. simpl. unfold spec.parsed.has_include at 2.
  destruct (0 <? length (Includes E p1))%nat, fb0; simpl; rewrite ?orb_true_r; done.
Qed.

Lemma initVariables_target c target vars :
  target = ScanFile \/ target = ScanProcess ->
  initVariables c target vars
  = (None, set_vars c (variables.setVariables (gora.vars c) vars (spec.target_mask target))).
Proof. intros [->| ->]; reflexivity. Qed.

(** Once the sources are parsed, whatever happens next, the selector of
    the instance is the one built from the candidates. *)
Lemma CompileStrings_body_vars c target ruleNs compiler w parser fb w1 :
  target = ScanFile \/ target = ScanProcess ->
  parseStrings E ruleNs (Parser_new E) false w = (inr (parser, fb), w1) ->
  list_ (gora.vars (CompileStrings_body E c target ruleNs compiler w).1.2)
  = spec.Build (if fb then List else Parser_Variables E parser) (spec.target_mask target).
Proof.
  intros Ht Hp. unfold CompileStrings_body. rewrite Hp, (initVariables_target _ _ _ Ht).
  rewrite <- (setVariables_spec (gora.vars c)).
  repeat match goal with
         | |- context [match ?x with _ => _ end] => destruct x; simpl; try done
         end.
Qed.

Lemma CompileFiles_body_vars c target filenameNS paths compiler w parser fb files w1 :
  target = ScanFile \/ target = ScanProcess ->
  openFiles E paths (Parser_new E) false [] w = (None, parser, fb, files, w1) ->
  list_ (gora.vars (CompileFiles_body E c target filenameNS paths compiler w).1.1.2)
  = spec.Build (if fb then List else Parser_Variables E parser) (spec.target_mask target).
Proof.
  intros Ht Hp. unfold CompileFiles_body. rewrite Hp, (initVariables_target _ _ _ Ht).
  rewrite <- (setVariables_spec (gora.vars c)).
  repeat match goal with
         | |- context [match ?x with _ => _ end] => destruct x; simpl; try done
         end.
Qed.

End CompileProperties.

(** C5. In CompileStrings and CompileFiles the candidates handed to the
    selector are the parser's referenced identifiers when no parse left
    an include, and List() when one did.  List() is 0 .. 24 and not
    every valid identifier: with an include present the last registered
    identifier, process_command_line, is not a candidate and is absent
    from the selector, although it applies to process scans. *)
Theorem compile_candidates {Compiler Rules Scanner File Parser W : Type}
    (E : Environment Compiler Rules File Parser W) (c : Compiled Rules Scanner)
    (target : ScanTarget) (w : W) (compiler : Compiler) (w0 : W) :
  rules c = None ->
  yara_NewCompiler E w = (inl compiler, w0) ->
  target = ScanFile \/ target = ScanProcess ->
  (forall ruleNs parser fb w1,
     parseStrings E ruleNs (Parser_new E) false w0 = (inr (parser, fb), w1) ->
     let included :=
       existsb (spec.parsed.has_include E)
               (spec.parsed.of_strings E ruleNs (Parser_new E) w0) in
     let candidates := if included then List else Parser_Variables E parser in
     let selector := list_ (gora.vars (CompileStrings E c target ruleNs w).1.2) in
     selector = spec.Build candidates (spec.target_mask target)
     /\ (included = true ->
         candidates = (N.of_nat <$> seq 0 25)
         /\ (VarProcessCommandLine ∉ candidates)
         /\ (VarProcessCommandLine ∉ selector)))
  /\ (forall filenameNS paths parser fb files w1,
        openFiles E paths (Parser_new E) false [] w0 = (None, parser, fb, files, w1) ->
        let included :=
          existsb (spec.parsed.has_include E)
                  (spec.parsed.of_files E paths (Parser_new E) w0) in
        let candidates := if included then List else Parser_Variables E parser in
        let selector :=
          list_ (gora.vars (CompileFiles E c target filenameNS paths w).1.2) in
        selector = spec.Build candidates (spec.target_mask target)
        /\ (included = true ->
            candidates = (N.of_nat <$> seq 0 25)
            /\ (VarProcessCommandLine ∉ candidates)
            /\ (VarProcessCommandLine ∉ selector)))
  /\ spec.valid VarProcessCommandLine
  /\ spec.applicable MetaProcess VarProcessCommandLine.
Proof.
  intros Hrules Hnew Ht.
  pose proof List_value as HL. pose proof List_omits_last as Hout.
  assert (Hvalid : spec.valid VarProcessCommandLine)
    by (unfold spec.valid, VarProcessCommandLine; lia).
  assert (Hsel : forall cand sel, sel = spec.Build cand (spec.target_mask target) ->
    VarProcessCommandLine ∉ cand -> VarProcessCommandLine ∉ sel).
  { intros cand sel -> Hc Hin. apply Hc.
    unfold spec.Build in Hin. apply list_elem_of_filter in Hin as [_ Hin].
    by rewrite elem_of_dedup_first in Hin. }
  split; [|split; [|split; [exact Hvalid|]]];
    [| |unfold spec.applicable; intros H; vm_compute in H; discriminate H].
  - intros ruleNs parser fb w1 Hp included candidates selector.
    pose proof (parseStrings_flag E _ _ _ _ _ _ _ Hp) as Hfb. simpl in Hfb.
    fold included in Hfb. subst fb.
    assert (Hs : selector = spec.Build candidates (spec.target_mask target)).
    { subst selector candidates. unfold CompileStrings. rewrite Hrules, Hnew.
      pose proof (CompileStrings_body_vars E c target ruleNs compiler w0 _ _ _ Ht Hp) as Hb.
      by destruct (CompileStrings_body E c target ruleNs compiler w0) as [[r c'] w']. }
    split; [exact Hs|]. intros Hinc. subst candidates. rewrite Hinc in Hs |- *.
    split; [exact HL|]. split; [exact Hout|]. by apply (Hsel List).
  - intros filenameNS paths parser fb files w1 Hp included candidates selector.
    pose proof (openFiles_flag E _ _ _ _ _ _ _ _ _ Hp) as Hfb. simpl in Hfb.
    fold included in Hfb. subst fb.
    assert (Hs : selector = spec.Build candidates (spec.target_mask target)).
    { subst selector candidates. unfold CompileFiles. rewrite Hrules, Hnew.
      pose proof (CompileFiles_body_vars E c target filenameNS paths compiler w0
                    _ _ _ _ Ht Hp) as Hb.
      by destruct (CompileFiles_body E c target filenameNS paths compiler w0)
        as [[[r c'] fs] w']. }
    split; [exact Hs|]. intros Hinc. subst candidates. rewrite Hinc in Hs |- *.
    split; [exact HL|]. split; [exact Hout|]. by apply (Hsel List).
Qed.

(** C8. On an instance that holds compiled rules every compile
    operation returns ErrAlreadyCompiled and changes neither the
    instance (its rules, its selector) nor the world. *)
Theorem compile_again_is_refused {Compiler Rules Scanner File Parser W : Type}
    (E : Environment Compiler Rules File Parser W) (c : Compiled Rules Scanner)
    (r : Rules) (target : ScanTarget) (filenameNS : bool) (w : W) :
  rules c = Some r ->
  (forall rule namespace,
     CompileString E c target rule namespace w = (Some ErrAlreadyCompiled, c, w))
  /\ (forall ruleNs, CompileStrings E c target ruleNs w = (Some ErrAlreadyCompiled, c, w))
  /\ (forall paths,
        CompileFiles E c target filenameNS paths w = (Some ErrAlreadyCompiled, c, w))
  /\ (forall path,
        CompileFileOrDir E c target filenameNS path w = (Some ErrAlreadyCompiled, c, w))
  /\ (forall dir,
        CompileDir E c target filenameNS dir w = (Some ErrAlreadyCompiled, c, w)).
Proof.
  intros Hr.
  unfold CompileString, CompileStrings, CompileFiles, CompileFileOrDir, CompileDir.
  rewrite Hr. done.
Qed.

(** ** The theorems at work on the small instance *)

(** A defaults pass over [os; process_id; time_now] into a compiler
    that rejects process_id: os stays defined, time_now is not tried. *)
Lemma DefineCompilerVariables_zero_values_witness :
  DefineCompilerVariables (D := demo.definer ["process_id"]) demo.defaults_selector tt []
  = (Some (ErrorsNew "undefined identifier"), [("os", VString "")]).
Proof.
  exact (proj1 (proj2 (DefineCompilerVariables_zero_values
    (demo.definer ["process_id"]) demo.defaults_selector tt []
    (Some (ErrorsNew "undefined identifier")) [("os", VString "")]
    [EvDefine tt "os" (VString "") None;
     EvDefine tt "process_id" (VInt64 0) (Some (ErrorsNew "undefined identifier"))]
    eq_refl))).
Defined.

(** A resolution pass in which the parent pid cannot be read and the
    file has no metadata: one hook call, for process_parent_id. *)
Lemma DefineScannerVariables_resolution_witness :
  DefineScannerVariables demo.externals (D := demo.definer []) demo.resolution_selector
    (demo.lenient demo.process_scan) tt []
  = (Ret None,
     [("file_path", VString "/usr/bin/tool"); ("process_parent_id", VInt64 0);
      ("file_readonly", VBool false); ("process_name", VString "tool")])
  /\ List.filter spec.is_hook
       [EvDefine tt "file_path" (VString "/usr/bin/tool") None;
        EvDefine tt "process_parent_id" (VInt64 0) None;
        EvHook tt VarProcessParentId (ErrorsNew "no such process") None;
        EvDefine tt "file_readonly" (VBool false) None;
        EvDefine tt "process_name" (VString "tool") None]
     = [EvHook tt VarProcessParentId (ErrorsNew "no such process") None].
Proof.
  pose proof (DefineScannerVariables_resolution demo.externals
    (demo.definer []) demo.resolution_selector (demo.lenient demo.process_scan) tt []
    (Ret None)
    [("file_path", VString "/usr/bin/tool"); ("process_parent_id", VInt64 0);
     ("file_readonly", VBool false); ("process_name", VString "tool")]
    [EvDefine tt "file_path" (VString "/usr/bin/tool") None;
     EvDefine tt "process_parent_id" (VInt64 0) None;
     EvHook tt VarProcessParentId (ErrorsNew "no such process") None;
     EvDefine tt "file_readonly" (VBool false) None;
     EvDefine tt "process_name" (VString "tool") None]
    eq_refl) as H.
  exact (conj (proj1 H) (proj2 (proj2 H))).
Defined.

(** Compiling one rule that includes another file, for a process scan:
    process_command_line is not in the selector. *)
Lemma compile_candidates_witness :
  VarProcessCommandLine ∉
    list_ (gora.vars (CompileStrings demo.environment
                        (NewCompiled : Compiled unit unit) ScanProcess
                        [demo.including_rule] []).1.2).
Proof.
  exact (proj2 (proj2 (proj2 (proj1 (compile_candidates demo.environment
    (NewCompiled : Compiled unit unit) ScanProcess [] tt []
    eq_refl eq_refl (or_intror eq_refl))
    [demo.including_rule] (["include other.yar"], []) true [] eq_refl) eq_refl))).
Defined.

(** Compiling again on an instance that has compiled. *)
Lemma compile_again_is_refused_witness :
  CompileString demo.environment demo.compiled ScanFile "rule r { condition: true }" "" []
  = (Some ErrAlreadyCompiled, demo.compiled, []).
Proof.
  exact (proj1 (compile_again_is_refused demo.environment demo.compiled tt ScanFile
    false [] eq_refl) "rule r { condition: true }" "").
Defined.

(** * Further properties of the code *)

(** ** Registry *)

(** X1. Every valid identifier has a name, two of them never share one,
    and String gives "" for the "none" identifier and past the table. *)
Theorem String_names_distinct :
  (forall v, spec.valid v -> String_ v <> "")
  /\ (forall a b, spec.valid a -> spec.valid b -> String_ a = String_ b -> a = b)
  /\ (forall v, ~ spec.valid v -> String_ v = "").
Proof.
  assert (Hnd : NoDup (String_ <$> (N.of_nat <$> seq 1 25))).
  { apply (bool_decide_unpack _). by vm_compute. }
  split; [|split].
  - apply (valid_Forall (fun v => String_ v <> "")).
    let l := eval vm_compute in (N.of_nat <$> seq 1 25) in
    change (N.of_nat <$> seq 1 25) with l.
    repeat (apply Forall_cons; split; [discriminate|]). constructor.
  - intros a b Ha Hb Heq.
    apply valid_cases, list_elem_of_lookup in Ha as [i Hi].
    apply valid_cases, list_elem_of_lookup in Hb as [j Hj].
    assert (i = j) as ->; [|congruence].
    apply (NoDup_lookup _ i j (String_ a) Hnd);
      rewrite list_lookup_fmap; [by rewrite Hi|by rewrite Hj, Heq].
  - intros v Hv. unfold String_. destruct (v <? typeEnd) eqn:Hlt; [|done].
    apply N.ltb_lt in Hlt. unfold typeEnd in Hlt.
    assert (v = 0) as -> by (unfold spec.valid, VarProcessCommandLine in Hv; lia).
    reflexivity.
Qed.

(** X2. The metadata table keeps its invariant: a valid identifier has
    exactly one value-type bit (bool, int or string; none is a float),
    applies to process scans, and applies to file scans exactly when it
    is one of os .. file_birth_time.  Meta is 0 for every other byte. *)
Theorem Meta_invariant (v : VariableType) :
  (spec.valid v ->
     (N.land (Meta v) spec.typeBits = MetaBool
      \/ N.land (Meta v) spec.typeBits = MetaInt
      \/ N.land (Meta v) spec.typeBits = MetaString)
     /\ N.land (Meta v) MetaProcess <> 0
     /\ (N.land (Meta v) MetaFile <> 0 <-> v <= VarFileBirthTime))
  /\ (~ spec.valid v -> Meta v = 0).
Proof.
  split; [|apply Meta_invalid].
  revert v. apply (valid_Forall (fun v =>
    (N.land (Meta v) spec.typeBits = MetaBool
      \/ N.land (Meta v) spec.typeBits = MetaInt
      \/ N.land (Meta v) spec.typeBits = MetaString)
     /\ N.land (Meta v) MetaProcess <> 0
     /\ (N.land (Meta v) MetaFile <> 0 <-> v <= VarFileBirthTime))).
  let l := eval vm_compute in (N.of_nat <$> seq 1 25) in
  change (N.of_nat <$> seq 1 25) with l.
  repeat (apply Forall_cons; split;
    [split; [vm_compute; tauto|];
     split; [by vm_compute|];
     unfold VarFileBirthTime; split;
       [intros H; first [lia | exfalso; apply H; by vm_compute]
       |intros H; first [lia | by vm_compute]]|]).
  constructor.
Qed.

Section SelectorFacts.
Implicit Types (vars l : list VariableType).

Lemma filter_other_notin (x : VariableType) l :
  x ∉ l -> filter (fun y => y ≠ x) l = l.
Proof.
  induction l as [|y l IH]; [done|].
  intros [Hxy Hx]%not_elem_of_cons.
  rewrite filter_cons_True by congruence. by rewrite IH.
Qed.

Lemma dedup_first_NoDup l : NoDup l -> spec.dedup_first l = l.
Proof.
  induction l as [|x l IH]; [done|]. intros [Hx Hl]%NoDup_cons. simpl.
  by rewrite (IH Hl), filter_other_notin.
Qed.

Lemma Build_idempotent vars metaMask :
  spec.Build (spec.Build vars metaMask) metaMask = spec.Build vars metaMask.
Proof.
  unfold spec.Build at 1.
  rewrite dedup_first_NoDup by apply NoDup_filter, NoDup_dedup_first.
  unfold spec.Build. apply list_filter_filter_r. tauto.
Qed.

(** Every identifier that applies to file scans applies to process
    scans. *)
Lemma applicable_file_process v :
  spec.applicable MetaFile v -> spec.applicable MetaProcess v.
Proof.
  intros Hf. pose proof (applicable_valid _ _ Hf) as Hv. revert v Hv Hf.
  apply (valid_Forall (fun v =>
    spec.applicable MetaFile v -> spec.applicable MetaProcess v)).
  let l := eval vm_compute in (N.of_nat <$> seq 1 25) in
  change (N.of_nat <$> seq 1 25) with l.
  repeat (apply Forall_cons; split; [intros _; by vm_compute|]). constructor.
Qed.

End SelectorFacts.

(** X3. Rebuilding a selector from its own identifiers, for the same
    target, gives the same selector. *)
Theorem Init_variables_idempotent (vr vr' : Variables_) (vars : list VariableType) :
  list_ (InitFileVariables vr' (list_ (InitFileVariables vr vars)))
  = list_ (InitFileVariables vr vars)
  /\ list_ (InitProcessVariables vr' (list_ (InitProcessVariables vr vars)))
     = list_ (InitProcessVariables vr vars).
Proof.
  unfold InitFileVariables, InitProcessVariables.
  rewrite !setVariables_spec. split; apply Build_idempotent.
Qed.

(** X4. The selector of a file scan is the selector of a process scan for
    the same candidates, without the process-only identifiers, in the
    same order; it can also be obtained by building for the process
    target first and then for the file target. *)
Theorem file_selector_within_process_selector (vr vr' : Variables_)
    (vars : list VariableType) :
  list_ (InitFileVariables vr vars)
  = filter (fun v => N.land (Meta v) MetaFile ≠ 0) (list_ (InitProcessVariables vr vars))
  /\ list_ (InitFileVariables vr' (list_ (InitProcessVariables vr vars)))
     = list_ (InitFileVariables vr vars)
  /\ (forall v, v ∈ list_ (InitFileVariables vr vars) ->
                v ∈ list_ (InitProcessVariables vr vars)).
Proof.
  unfold InitFileVariables, InitProcessVariables. rewrite !setVariables_spec.
  assert (H1 : spec.Build vars MetaFile
               = filter (spec.applicable MetaFile) (spec.Build vars MetaProcess)).
  { unfold spec.Build. symmetry. apply list_filter_filter_l, applicable_file_process. }
  split; [exact H1|]. split.
  - unfold spec.Build at 1.
    rewrite dedup_first_NoDup by apply NoDup_filter, NoDup_dedup_first.
    by rewrite <- H1.
  - intros v. rewrite H1, list_elem_of_filter. tauto.
Qed.

(** ** Computation routines *)

Section RoutineFacts.
Context {Time GoContext : Type} (X : Externals Time GoContext).
Implicit Types sCtx : ScanInfo Time GoContext.

Lemma Ext_no_dot_left s :
  filepath.Ext s = "" ->
  existsb filepath.IsPathSeparator (list_ascii_of_string s) = false ->
  strings.CountByte s "."%char = 0%nat.
Proof.
  induction s as [|c s IH]; [done|]. cbn [filepath.Ext].
  simpl list_ascii_of_string. simpl existsb.
  intros HE Hsep. apply orb_false_iff in Hsep as [Hc Hsep].
  destruct (String.eqb (filepath.Ext s) "") eqn:Hs; simpl in HE.
  - apply String.eqb_eq in Hs. rewrite Hsep in HE.
    cbn [strings.CountByte]. rewrite (IH Hs Hsep).
    rewrite Ascii.eqb_sym. by destruct (Ascii.eqb c "."%char).
  - rewrite HE in Hs. done.
Qed.

(** filepath.Ext is empty or a dot followed by bytes that are neither
    a dot nor a separator. *)
Lemma Ext_shape s :
  filepath.Ext s = ""
  \/ exists r, filepath.Ext s = String "."%char r
       /\ strings.CountByte r "."%char = 0%nat
       /\ existsb filepath.IsPathSeparator (list_ascii_of_string r) = false.
Proof.
  induction s as [|c s IH]; [by left|]. cbn [filepath.Ext].
  destruct (String.eqb (filepath.Ext s) "") eqn:Hs; simpl.
  - apply String.eqb_eq in Hs.
    destruct (existsb filepath.IsPathSeparator (list_ascii_of_string s)) eqn:Hsep;
      [by left|].
    destruct (Ascii.eqb c "."%char) eqn:Hc; [|by left].
    apply Ascii.eqb_eq in Hc as ->. right. exists s.
    split; [done|]. split; [by apply Ext_no_dot_left|done].
  - exact IH.
Qed.

Lemma CountByte_separator s :
  existsb filepath.IsPathSeparator (list_ascii_of_string s) = false ->
  strings.CountByte s filepath.Separator = 0%nat.
Proof.
  unfold filepath.IsPathSeparator, filepath.Separator.
  induction s as [|c s IH]; [done|]. cbn [list_ascii_of_string existsb strings.CountByte].
  intros [Hc Hs]%orb_false_iff. rewrite (IH Hs).
  rewrite Ascii.eqb_sym in Hc. by rewrite Hc.
Qed.

End RoutineFacts.

(** X10. The file extension computed for a scan never holds a dot or a path
    separator, whatever the path. *)
Theorem file_extension_has_no_dot {Time GoContext : Type}
    (X : Externals Time GoContext) (sCtx : ScanInfo Time GoContext) :
  exists ext,
    Value X VarFileExtension sCtx = Ret (Some (VString ext), None)
    /\ strings.CountByte ext "."%char = 0%nat
    /\ strings.CountByte ext filepath.Separator = 0%nat.
Proof.
  change (Value X VarFileExtension sCtx) with (varFileExtensionFunc sCtx).
  rewrite varFileExtensionFunc_value. cbv zeta.
  set (s := if String.eqb (FilePath sCtx) "" then "" else filepath.Clean (FilePath sCtx)).
  eexists. split; [reflexivity|].
  destruct (String.eqb s ""); [done|].
  destruct (strings.HasPrefix s "." && Nat.eqb (strings.CountByte s "."%char) 1); [done|].
  destruct (Ext_shape s) as [->|(r & -> & Hdot & Hsep)]; [done|].
  assert (strings.TrimPrefix (String "."%char r) "." = r) as ->.
  { unfold strings.TrimPrefix. cbn. by destruct r. }
  split; [exact Hdot|by apply CountByte_separator].
Qed.

(** X8. The routines for os, os_linux, os_windows, os_darwin, file_path,
    file_name, file_extension, process_id and process_path always
    return a non-nil value and a nil error: a resolution pass never
    replaces their value by the default and never calls the failure
    hook for them. *)
Theorem routines_that_always_compute {Time GoContext : Type}
    (X : Externals Time GoContext) (sCtx : ScanInfo Time GoContext) :
  Forall (fun vid => exists v, Value X vid sCtx = Ret (Some v, None))
    [VarOs; VarOsLinux; VarOsWindows; VarOsDarwin; VarFilePath; VarFileName;
     VarFileExtension; VarProcessId; VarProcessPath].
Proof.
  repeat (apply Forall_cons; split;
    [first [ change (exists v, varFileNameFunc sCtx = Ret (Some v, None));
             rewrite varFileNameFunc_value; by eexists
           | change (exists v, varFileExtensionFunc sCtx = Ret (Some v, None));
             rewrite varFileExtensionFunc_value; by eexists
           | change (exists v, varFilePathFunc sCtx = Ret (Some v, None));
             rewrite varFilePathFunc_value; by eexists
           | change (exists v, varOsFunc X sCtx = Ret (Some v, None)); unfold varOsFunc;
             repeat case_match; by eexists
           | by eexists ]|]).
  constructor.
Qed.

(** X9. The os variable is runtime.GOOS on every platform, and each of the
    three boolean companions says whether it is its literal; no two of
    them are true together. *)
Theorem os_routines_agree {Time GoContext : Type}
    (X : Externals Time GoContext) (sCtx : ScanInfo Time GoContext) :
  Value X VarOs sCtx = Ret (Some (VString (GOOS X)), None)
  /\ exists linux windows darwin,
       Value X VarOsLinux sCtx = Ret (Some (VBool linux), None)
       /\ Value X VarOsWindows sCtx = Ret (Some (VBool windows), None)
       /\ Value X VarOsDarwin sCtx = Ret (Some (VBool darwin), None)
       /\ (linux = true <-> GOOS X = "linux")
       /\ (windows = true <-> GOOS X = "windows")
       /\ (darwin = true <-> GOOS X = "darwin")
       /\ linux && windows = false
       /\ linux && darwin = false
       /\ windows && darwin = false.
Proof.
  split.
  - change (Value X VarOs sCtx) with (varOsFunc X sCtx). unfold varOsFunc.
    destruct (String.eqb (GOOS X) "windows") eqn:H1;
      [by apply String.eqb_eq in H1 as ->|].
    destruct (String.eqb (GOOS X) "linux") eqn:H2;
      [by apply String.eqb_eq in H2 as ->|].
    destruct (String.eqb (GOOS X) "darwin") eqn:H3;
      [by apply String.eqb_eq in H3 as ->|done].
  - exists (String.eqb (GOOS X) "linux"), (String.eqb (GOOS X) "windows"),
      (String.eqb (GOOS X) "darwin").
    do 3 (split; [reflexivity|]).
    rewrite !String.eqb_eq. do 3 (split; [done|]).
    destruct (String.eqb (GOOS X) "linux") eqn:H1;
      [apply String.eqb_eq in H1; rewrite H1; by vm_compute|].
    destruct (String.eqb (GOOS X) "windows") eqn:H2;
      [apply String.eqb_eq in H2; rewrite H2; by vm_compute|done].
Qed.

(** X7. A routine of variables.go that returns a value returns one of the
    Go type its identifier's metadata declares (string, int64 or bool):
    the scanner is never handed a value of another type than the
    default the compiler was given.  The five routines of the platform
    specific files are outside this statement. *)
Theorem Value_type_agrees_with_Meta {Time GoContext : Type}
    (X : Externals Time GoContext) (sCtx : ScanInfo Time GoContext)
    (vid : VariableType) (v : value) (err : option error) :
  typing.platform_specific vid = false ->
  Value X vid sCtx = Ret (Some v, err) ->
  typing.value_type v = N.land (Meta vid) spec.typeBits.
Proof.
  intros Hp Hval.
  assert (Hv : spec.valid vid) by (apply (Value_valid X vid sCtx); by rewrite Hval).
  revert vid Hv Hp v err Hval.
  apply (valid_Forall (fun vid => typing.platform_specific vid = false ->
    forall v err, Value X vid sCtx = Ret (Some v, err) ->
    typing.value_type v = N.land (Meta vid) spec.typeBits)).
  let l := eval vm_compute in (N.of_nat <$> seq 1 25) in
  change (N.of_nat <$> seq 1 25) with l.
  repeat (apply Forall_cons; split;
    [intros Hp v err Hval;
     first [ discriminate Hp
           | change (varFileNameFunc sCtx = Ret (Some v, err)) in Hval;
             rewrite varFileNameFunc_value in Hval; by simplify_eq
           | change (varFileExtensionFunc sCtx = Ret (Some v, err)) in Hval;
             rewrite varFileExtensionFunc_value in Hval; by simplify_eq
           | change (varFilePathFunc sCtx = Ret (Some v, err)) in Hval;
             rewrite varFilePathFunc_value in Hval; by simplify_eq
           | cbv [Value Valuers lookup list_lookup N.to_nat Pos.to_nat Pos.iter_op
                  Nat.add varOsFunc varOsLinuxFunc varOsWindowsFunc varOsDarwinFunc
                  varTimeNowFunc varFileReadonlyFunc
                  varFileModifiedTimeFunc varFileAccessedTimeFunc
                  varFileChangedTimeFunc varFileBirthTimeFunc varProcessIdFunc
                  varProcessParentIdFunc varProcessUserNameFunc varProcessUserSidFunc
                  varProcessNameFunc varProcessCommandLineFunc intTimeHelper
                  vOsValueWindows vOsValueLinux vOsValueDarwin] in Hval;
             repeat case_match; by simplify_eq ]|]).
  constructor.
Qed.

Lemma Value_type_agrees_with_Meta_witness :
  typing.value_type (VInt64 42) = N.land (Meta VarProcessId) spec.typeBits.
Proof.
  exact (Value_type_agrees_with_Meta demo.externals demo.file_scan VarProcessId
           (VInt64 42) None eq_refl eq_refl).
Defined.

(** X11. With no file metadata (FileInfo() is nil) the readonly, modified
    time, accessed time, changed time and birth time routines return
    (nil, nil): the variable gets its default and the failure hook is
    not called. *)
Theorem file_routines_without_FileInfo {Time GoContext : Type}
    (X : Externals Time GoContext) (sCtx : ScanInfo Time GoContext) :
  variables.FileInfo sCtx = None ->
  Forall (fun vid => Value X vid sCtx = Ret (None, None))
    [VarFileReadonly; VarFileModifiedTime; VarFileAccessedTime;
     VarFileChangedTime; VarFileBirthTime].
Proof.
  intros Hnil.
  assert (H1 : varFileReadonlyFunc sCtx = Ret (None, None))
    by (unfold varFileReadonlyFunc; by rewrite Hnil).
  assert (H2 : varFileModifiedTimeFunc X sCtx = Ret (None, None))
    by (unfold varFileModifiedTimeFunc; by rewrite Hnil).
  assert (H3 : varFileAccessedTimeFunc X sCtx = Ret (None, None))
    by (unfold varFileAccessedTimeFunc; by rewrite Hnil).
  assert (H4 : varFileChangedTimeFunc X sCtx = Ret (None, None))
    by (unfold varFileChangedTimeFunc; by rewrite Hnil).
  assert (H5 : varFileBirthTimeFunc X sCtx = Ret (None, None))
    by (unfold varFileBirthTimeFunc; by rewrite Hnil).
  repeat (apply Forall_cons; split; [assumption|]). constructor.
Qed.

Lemma file_routines_without_FileInfo_witness :
  Forall (fun vid => Value demo.externals vid demo.file_scan = Ret (None, None))
    [VarFileReadonly; VarFileModifiedTime; VarFileAccessedTime;
     VarFileChangedTime; VarFileBirthTime].
Proof.
  exact (file_routines_without_FileInfo demo.externals demo.file_scan eq_refl).
Defined.

(** X12. file_readonly is decided by the three write bits of the mode alone:
    it is true exactly when none of them is set, whatever the file
    type bits and the other permission bits are. *)
Theorem file_readonly_write_bits {Time GoContext : Type}
    (X : Externals Time GoContext) (sCtx : ScanInfo Time GoContext)
    (info : FileInfo_ Time) :
  variables.FileInfo sCtx = Some info ->
  exists readonly,
    Value X VarFileReadonly sCtx = Ret (Some (VBool readonly), None)
    /\ (readonly = true <-> Z.land (variables.Mode info) 146 = 0%Z).
Proof.
  intros Hinfo. eexists. split.
  - change (Value X VarFileReadonly sCtx) with (varFileReadonlyFunc sCtx).
    unfold varFileReadonlyFunc. by rewrite Hinfo.
  - unfold Perm. rewrite <- Z.land_assoc.
    change (Z.land 511 146) with 146%Z. apply Z.eqb_eq.
Qed.

(** X13. The parent-pid and user-sid routines never return a value together
    with an error; the user-name, process-name and command-line
    routines return a string whenever the process is known, error or
    not. *)
Theorem process_routines_value_or_error {Time GoContext : Type}
    (X : Externals Time GoContext) (sCtx : ScanInfo Time GoContext) :
  (forall v err, Value X VarProcessParentId sCtx = Ret (Some v, Some err) -> False)
  /\ (forall v err, Value X VarProcessUserSid sCtx = Ret (Some v, Some err) -> False)
  /\ (forall proc, ProcessInfo sCtx = Some proc ->
        Value X VarProcessUserName sCtx
          = Ret (Some (VString (Username proc).1), (Username proc).2)
        /\ Value X VarProcessName sCtx
           = Ret (Some (VString (NameWithContext proc (Context_ sCtx)).1),
                  (NameWithContext proc (Context_ sCtx)).2)
        /\ Value X VarProcessCommandLine sCtx
           = Ret (Some (VString (CmdlineWithContext proc (Context_ sCtx)).1),
                  (CmdlineWithContext proc (Context_ sCtx)).2)).
Proof.
  split; [|split].
  - intros v err. change (Value X VarProcessParentId sCtx)
      with (varProcessParentIdFunc sCtx). unfold varProcessParentIdFunc.
    repeat case_match; by intros.
  - intros v err. change (Value X VarProcessUserSid sCtx)
      with (varProcessUserSidFunc X sCtx).
    unfold varProcessUserSidFunc, varProcessUserNameFunc.
    repeat case_match; by intros.
  - intros proc Hp.
    change (Value X VarProcessUserName sCtx) with (varProcessUserNameFunc sCtx).
    change (Value X VarProcessName sCtx) with (varProcessNameFunc sCtx).
    change (Value X VarProcessCommandLine sCtx) with (varProcessCommandLineFunc sCtx).
    unfold varProcessUserNameFunc, varProcessNameFunc, varProcessCommandLineFunc.
    rewrite Hp.
    destruct (Username proc), (NameWithContext proc (Context_ sCtx)),
      (CmdlineWithContext proc (Context_ sCtx)). done.
Qed.

(** ** Defaults and resolution together *)

Section PassFacts.
Context {Time GoContext : Type} (X : Externals Time GoContext).
Context {Dh W : Type} (D : VariableDefiner Dh W).

Lemma built_selector_valid (vr0 : Variables_) vars metaMask vid :
  vid ∈ list_ (setVariables vr0 vars metaMask) -> spec.valid vid.
Proof.
  rewrite setVariables_spec. unfold spec.Build.
  intros [Ha _]%list_elem_of_filter. by apply applicable_valid in Ha.
Qed.

Lemma DefineCompilerVariables_loop_valid l compiler :
  (forall vid, vid ∈ l -> spec.valid vid) ->
  forall w,
    match DefineCompilerVariables_loop (D := D) l compiler w with
    | (None, w') => True
    | (Some e, w') =>
        exists vid w0, vid ∈ l
          /\ D compiler (String_ vid) (spec.zero_value vid) w0 = (Some e, w')
    end.
Proof.
  induction l as [|vid l IH]; intros Hl w; cbn [DefineCompilerVariables_loop];
    [done|].
  rewrite (defineDefaultValue_valid D vid compiler w) by (apply Hl; left).
  destruct (D compiler (String_ vid) (spec.zero_value vid) w) as [[e|] w1] eqn:HD.
  - exists vid, w. split; [left|done].
  - specialize (IH (fun v Hv => Hl v (list_elem_of_further _ _ _ Hv)) w1).
    destruct (DefineCompilerVariables_loop l compiler w1) as [[e|] w2]; [|done].
    destruct IH as (v & w0 & Hin & HD'). exists v, w0. split; [by right|done].
Qed.

Lemma DefineCompilerVariables_loop_accepting l compiler :
  (forall vid, vid ∈ l -> spec.valid vid) ->
  (forall name v w0, (D compiler name v w0).1 = None) ->
  forall w, (DefineCompilerVariables_loop (D := D) l compiler w).1 = None.
Proof.
  intros Hl Hacc w. pose proof (DefineCompilerVariables_loop_valid l compiler Hl w) as H.
  destruct (DefineCompilerVariables_loop l compiler w) as [[e|] w']; [|done].
  destruct H as (vid & w0 & _ & HD). specialize (Hacc (String_ vid) (spec.zero_value vid) w0).
  by rewrite HD in Hacc.
Qed.

(** A resolution loop that returns nil met no panicking Valuer. *)
Lemma DefineScannerVariables_loop_nil_values
    (sCtx : ScanContext Time GoContext Dh W) scanner l :
  forall w w', DefineScannerVariables_loop X (D := D) l sCtx scanner w = (Ret None, w') ->
  forall vid, vid ∈ l -> Value X vid sCtx <> Panic.
Proof.
  induction l as [|vid l IH]; intros w w' Hrun v Hin; [by apply elem_of_nil in Hin|].
  cbn [DefineScannerVariables_loop] in Hrun.
  destruct (Value X vid sCtx) as [[val err]|] eqn:Hval; [|done].
  apply elem_of_cons in Hin as [->|Hin]; [by rewrite Hval|].
  repeat case_match; simplify_eq; eauto.
Qed.

End PassFacts.

(** X5. On a selector built by InitFileVariables or InitProcessVariables a
    defaults pass never fails with the unknown-variable error of its
    own: any error it returns is one the acceptor gave for the zero
    value of a selected identifier, and with an acceptor that accepts
    every definition the pass returns nil. *)
Theorem DefineCompilerVariables_fails_only_in_acceptor {Dh W : Type}
    (D : VariableDefiner Dh W) (vr0 : Variables_) (vars : list VariableType)
    (metaMask : MetaType) (compiler : Dh) (w : W) :
  let vr := setVariables vr0 vars metaMask in
  (forall e w', DefineCompilerVariables (D := D) vr compiler w = (Some e, w') ->
     exists vid w0, vid ∈ list_ vr
       /\ D compiler (String_ vid) (spec.zero_value vid) w0 = (Some e, w'))
  /\ ((forall name v w0, (D compiler name v w0).1 = None) ->
      (DefineCompilerVariables (D := D) vr compiler w).1 = None).
Proof.
  intros vr. unfold DefineCompilerVariables.
  assert (Hl : forall vid, vid ∈ list_ vr -> spec.valid vid)
    by (intros vid; apply built_selector_valid).
  split.
  - intros e w' Hrun.
    pose proof (DefineCompilerVariables_loop_valid D (list_ vr) compiler Hl w) as H.
    by rewrite Hrun in H.
  - intros Hacc. by apply DefineCompilerVariables_loop_accepting.
Qed.

(** X6. A resolution pass that returns nil defines exactly the names that a
    defaults pass that returns nil defined at compile time: the name of
    each selected identifier, once, in selector order. *)
Theorem passes_define_the_same_names {Time GoContext : Type}
    (X : Externals Time GoContext) {Dh W : Type}
    (Dc Ds : VariableDefiner Dh W) (vr : Variables_)
    (sCtx : ScanContext Time GoContext Dh W) (compiler scanner : Dh) (wc ws : W)
    (wc' ws' : W) (logc logs : list (event Dh)) :
  DefineCompilerVariables (D := recDefiner Dc) vr compiler (wc, [])
    = (None, (wc', logc)) ->
  DefineScannerVariables X (D := recDefiner Ds) vr (recContext sCtx) scanner (ws, [])
    = (Ret None, (ws', logs)) ->
  omap typing.defined_name logc = String_ <$> list_ vr
  /\ omap typing.defined_name logs = String_ <$> list_ vr.
Proof.
  intros Hc Hs.
  apply DefineCompilerVariables_loop_rec in Hc as (lc & Hlc & _ & _ & Hpc).
  apply DefineScannerVariables_loop_rec in Hs as (ls & Hls & Hplain & Hps).
  simpl in Hlc, Hls, Hpc, Hps. subst lc ls. destruct Hps as [Hps _].
  pose proof (DefineScannerVariables_loop_nil_values X Ds sCtx scanner _ _ _ Hplain) as Hnp.
  split.
  - rewrite Hpc. unfold spec.compiler_events. clear.
    induction (list_ vr) as [|vid l IH]; [done|]. simpl. f_equal. exact IH.
  - rewrite Hps. unfold spec.scanner_events. clear -Hnp.
    induction (list_ vr) as [|vid l IH]; [done|]. simpl.
    assert (Hvid : Value X vid sCtx <> Panic) by (apply Hnp; left).
    assert (IH' : omap typing.defined_name
              (flat_map (fun vid => spec.resolved_events scanner vid (Value X vid sCtx)) l)
            = String_ <$> l) by (apply IH; intros v Hv; apply Hnp; by right).
    rewrite omap_app, IH'.
    destruct (Value X vid sCtx) as [[[v|] [err|]]|]; done.
Qed.

Lemma passes_define_the_same_names_witness :
  omap typing.defined_name
    [EvDefine tt "file_path" (VString "") None;
     EvDefine tt "process_parent_id" (VInt64 0) None;
     EvDefine tt "file_readonly" (VBool false) None;
     EvDefine tt "process_name" (VString "") None]
  = String_ <$> list_ demo.resolution_selector
  /\ omap typing.defined_name
       [EvDefine tt "file_path" (VString "/usr/bin/tool") None;
        EvDefine tt "process_parent_id" (VInt64 0) None;
        EvHook tt VarProcessParentId (ErrorsNew "no such process") None;
        EvDefine tt "file_readonly" (VBool false) None;
        EvDefine tt "process_name" (VString "tool") None]
     = String_ <$> list_ demo.resolution_selector.
Proof.
  exact (passes_define_the_same_names demo.externals (demo.definer []) (demo.definer [])
    demo.resolution_selector (demo.lenient demo.process_scan) tt tt [] []
    [("file_path", VString ""); ("process_parent_id", VInt64 0);
     ("file_readonly", VBool false); ("process_name", VString "")]
    [("file_path", VString "/usr/bin/tool"); ("process_parent_id", VInt64 0);
     ("file_readonly", VBool false); ("process_name", VString "tool")]
    _ _ eq_refl eq_refl).
Defined.

(** ** Compile operations: errors and the instance *)

Section CompileFacts.
Context {Compiler Rules Scanner File Parser W : Type}.
Context (E : Environment Compiler Rules File Parser W).
Implicit Types (c : Compiled Rules Scanner) (w : W) (target : ScanTarget).

Lemma compilerError_not_new compiler msg e w s :
  compilerError E compiler (ErrWrap msg e) w <> ErrorsNew s.
Proof. unfold compilerError. by case_match. Qed.

Lemma addStrings_not_new ruleNs compiler : forall w err w' s,
  addStrings E ruleNs compiler w = (Some err, w') -> err <> ErrorsNew s.
Proof.
  induction ruleNs as [|rule ruleNs IH]; intros w err w' s Hrun; [done|].
  cbn [addStrings] in Hrun.
  destruct (Compiler_AddString E compiler (Rule rule) (Namespace rule) w) as [[e|] w1].
  - injection Hrun as <- <-. apply compilerError_not_new.
  - by eapply IH.
Qed.

Lemma parseStrings_not_new ruleNs : forall parser fb w err w' s,
  parseStrings E ruleNs parser fb w = (inl err, w') -> err <> ErrorsNew s.
Proof.
  induction ruleNs as [|rule ruleNs IH]; intros parser fb w err w' s Hrun; [done|].
  cbn [parseStrings] in Hrun.
  destruct (ParseFromReader E parser (strings_NewReader (Rule rule)) w)
    as [[[e|] p1] w1].
  - by injection Hrun as <- <-.
  - by eapply IH.
Qed.

Lemma initVariables_cases c target vars :
  (target <> ScanFile /\ target <> ScanProcess
   /\ initVariables c target vars
      = (Some (ErrorsNew ("invalid scan target:" ++ pretty target)), c))
  \/ ((target = ScanFile \/ target = ScanProcess)
      /\ initVariables c target vars
         = (None, set_vars c (variables.setVariables (gora.vars c) vars
                                (spec.target_mask target)))).
Proof.
  unfold initVariables, spec.target_mask.
  destruct (target =? ScanProcess) eqn:H1.
  { apply N.eqb_eq in H1 as ->. right. by split; [right|]. }
  destruct (target =? ScanFile) eqn:H2.
  { apply N.eqb_eq in H2 as ->. right. by split; [left|]. }
  apply N.eqb_neq in H1, H2. by left.
Qed.

End CompileFacts.

Lemma CompileStrings_uncompiled {Compiler Rules Scanner File Parser W : Type}
    (E : Environment Compiler Rules File Parser W) (c : Compiled Rules Scanner)
    (target : ScanTarget) (ruleNs : list RuleNamespace) (w : W) :
  rules c = None ->
  (CompileStrings E c target ruleNs w).1.1 <> Some ErrAlreadyCompiled.
Proof.
  intros Hr. unfold CompileStrings. rewrite Hr.
  destruct (yara_NewCompiler E w) as [[compiler|e] w0]; [|done].
  unfold CompileStrings_body.
  destruct (parseStrings E ruleNs (Parser_new E) false w0) as [[e|[parser fb]] w1] eqn:Hp.
  { simpl. intros [= ->]. by eapply parseStrings_not_new in Hp. }
  destruct (initVariables_cases c target
              (if fb then List else Parser_Variables E parser)) as [(_ & _ & ->)|[_ ->]].
  { simpl. by intros [= H]. }
  destruct (variables.DefineCompilerVariables _ _ _) as [[e|] w2].
  { simpl. intros [= H]. by eapply compilerError_not_new. }
  destruct (addStrings E ruleNs compiler w2) as [[e|] w3] eqn:Ha.
  { simpl. intros [= ->]. by eapply addStrings_not_new in Ha. }
  destruct (Compiler_GetRules E compiler w3) as [[r [e|]] w4]; simpl; [|done].
  intros [= H]. by eapply compilerError_not_new.
Qed.

(** X14. CompileStrings (and so CompileString) returns ErrAlreadyCompiled
    exactly when the instance holds compiled rules: on an instance
    without rules none of its failures is that error. *)
Theorem CompileStrings_already_compiled_iff
    {Compiler Rules Scanner File Parser W : Type}
    (E : Environment Compiler Rules File Parser W) (c : Compiled Rules Scanner)
    (target : ScanTarget) (ruleNs : list RuleNamespace) (w : W) :
  (CompileStrings E c target ruleNs w).1.1 = Some ErrAlreadyCompiled
  <-> rules c <> None.
Proof.
  split.
  - intros Herr Hr. by apply (CompileStrings_uncompiled E c target ruleNs w Hr).
  - unfold CompileStrings. by destruct (rules c).
Qed.

(** X15. A compile operation called with a scan target other than ScanFile
    and ScanProcess never succeeds and leaves the instance as it was. *)
Theorem compile_invalid_target {Compiler Rules Scanner File Parser W : Type}
    (E : Environment Compiler Rules File Parser W) (c : Compiled Rules Scanner)
    (target : ScanTarget) (filenameNS : bool) (w : W) :
  target <> ScanFile -> target <> ScanProcess ->
  (forall ruleNs, exists err w',
     CompileStrings E c target ruleNs w = (Some err, c, w'))
  /\ (forall paths, exists err w',
        CompileFiles E c target filenameNS paths w = (Some err, c, w')).
Proof.
  intros Hf Hp. split.
  - intros ruleNs. unfold CompileStrings. destruct (rules c); [by eexists _, _|].
    destruct (yara_NewCompiler E w) as [[compiler|e] w0]; [|by eexists _, _].
    unfold CompileStrings_body.
    destruct (parseStrings E ruleNs (Parser_new E) false w0) as [[e|[parser fb]] w1];
      [by eexists _, _|].
    destruct (initVariables_cases c target
                (if fb then List else Parser_Variables E parser))
      as [(_ & _ & ->)|[[?|?] _]]; [by eexists _, _|done|done].
  - intros paths. unfold CompileFiles. destruct (rules c); [by eexists _, _|].
    destruct (yara_NewCompiler E w) as [[compiler|e] w0]; [|by eexists _, _].
    unfold CompileFiles_body.
    destruct (openFiles E paths (Parser_new E) false [] w0)
      as [[[[[e|] parser] fb] files] w1]; [by eexists _, _|].
    destruct (initVariables_cases c target
                (if fb then List else Parser_Variables E parser))
      as [(_ & _ & ->)|[[?|?] _]]; [by eexists _, _|done|done].
Qed.

Lemma compile_invalid_target_witness :
  exists err w',
    CompileStrings demo.environment (NewCompiled : Compiled unit unit) 2
      [demo.including_rule] [] = (Some err, NewCompiled, w').
Proof.
  exact (proj1 (compile_invalid_target demo.environment (NewCompiled : Compiled unit unit)
                  2 false [] ltac:(discriminate) ltac:(discriminate))
           [demo.including_rule]).
Defined.

Section FileCompileFacts.
Context {Compiler Rules Scanner File Parser W : Type}.
Context (E : Environment Compiler Rules File Parser W).
Implicit Types (c : Compiled Rules Scanner) (w : W) (target : ScanTarget).

Lemma compileFiles_error compiler files filenameNS w r err w' :
  compileFiles E compiler files filenameNS w = (r, Some err, w') -> r = None.
Proof.
  unfold compileFiles. repeat case_match; by intros [= <- <- <-].
Qed.

Lemma CompileFiles_error_rules c target filenameNS paths w err c' w' :
  rules c = None ->
  CompileFiles E c target filenameNS paths w = (Some err, c', w') ->
  rules c' = None.
Proof.
  intros Hr. unfold CompileFiles. rewrite Hr.
  destruct (yara_NewCompiler E w) as [[compiler|e] w0]; [|by intros [= <- <- <-]].
  unfold CompileFiles_body.
  destruct (openFiles E paths (Parser_new E) false [] w0)
    as [[[[[e|] parser] fb] files] w1]; [by intros [= <- <- <-]|].
  destruct (initVariables_cases c target
              (if fb then List else Parser_Variables E parser))
    as [(_ & _ & ->)|[_ ->]]; [by intros [= <- <- <-]|].
  destruct (variables.DefineCompilerVariables _ _ _) as [[e|] w2];
    [by intros [= <- <- <-]|].
  destruct (compileFiles E compiler files filenameNS w2) as [[r [e|]] w3] eqn:Hc;
    [|by intros [= <- <- <-]].
  apply compileFiles_error in Hc as ->. by intros [= <- <- <-].
Qed.

(** The names of a listing that CompileDir keeps: those whose
    extension is .yar or .yara, compared by strings.EqualFold. *)
Lemma ruleFilePaths_filter dir names :
  ruleFilePaths E dir names
  = map (filepath.Join dir)
      (List.filter (fun name =>
         strings_EqualFold E (filepath.Ext name) ".yar"
         || strings_EqualFold E (filepath.Ext name) ".yara") names).
Proof.
  induction names as [|name names IH]; [done|]. cbn [ruleFilePaths List.filter].
  rewrite IH.
  by destruct (strings_EqualFold E (filepath.Ext name) ".yar"),
    (strings_EqualFold E (filepath.Ext name) ".yara").
Qed.

End FileCompileFacts.

(** X16. A compile from files that fails leaves the instance without
    compiled rules, whichever step failed, so a later compile on the
    same instance is not refused as already compiled.  This holds for
    CompileFiles, CompileDir and CompileFileOrDir. *)
Theorem failed_file_compile_leaves_uncompiled
    {Compiler Rules Scanner File Parser W : Type}
    (E : Environment Compiler Rules File Parser W) (c : Compiled Rules Scanner)
    (target : ScanTarget) (filenameNS : bool) (w : W) :
  rules c = None ->
  (forall paths err c' w',
     CompileFiles E c target filenameNS paths w = (Some err, c', w') -> rules c' = None)
  /\ (forall dir err c' w',
        CompileDir E c target filenameNS dir w = (Some err, c', w') -> rules c' = None)
  /\ (forall path err c' w',
        CompileFileOrDir E c target filenameNS path w = (Some err, c', w') ->
        rules c' = None).
Proof.
  intros Hr.
  assert (HF : forall paths w err c' w',
    CompileFiles E c target filenameNS paths w = (Some err, c', w') -> rules c' = None)
    by (intros; by eapply CompileFiles_error_rules).
  assert (HD : forall dir w err c' w',
    CompileDir E c target filenameNS dir w = (Some err, c', w') -> rules c' = None).
  { intros dir w1 err c' w'. unfold CompileDir. rewrite Hr.
    destruct (os_Open E dir w1) as [[f|e] w0]; [|by intros [= <- <- <-]].
    destruct (File_Readdirnames E f w0) as [[names [e|]] w2]; [by intros [= <- <- <-]|].
    destruct (length (ruleFilePaths E dir names) =? 0)%nat; [by intros [= <- <- <-]|].
    destruct (CompileFiles E c target filenameNS (ruleFilePaths E dir names) w2)
      as [[r c''] w3] eqn:Hc.
    intros [= -> <- <-]. by eapply HF. }
  split; [intros paths; apply HF|]. split; [intros dir; apply HD|].
  intros path err c' w'. unfold CompileFileOrDir. rewrite Hr.
  destruct (os_Stat E path w) as [[info|e] w0]; [|by intros [= <- <- <-]].
  destruct (IsDir info); [apply HD|].
  destruct (IsRegular (Mode info)); [apply HF|by intros [= <- <- <-]].
Qed.

Lemma failed_file_compile_leaves_uncompiled_witness :
  rules (CompileFiles demo.environment (NewCompiled : Compiled unit unit) ScanFile
           false ["rules.yar"] []).1.2 = None.
Proof.
  exact (proj1 (failed_file_compile_leaves_uncompiled demo.environment
                  (NewCompiled : Compiled unit unit) ScanFile false [] eq_refl)
           ["rules.yar"] (ErrorsNew "no such file or directory") NewCompiled []
           eq_refl).
Defined.

(** X17. CompileDir compiles the names of the listing whose extension is
    .yar or .yara (by strings.EqualFold), each joined to the directory,
    in listing order, and closes the directory afterwards; when the
    listing holds no such name it fails with "no yara files", creates
    no compiler and leaves the instance as it was. *)
Theorem CompileDir_rule_files {Compiler Rules Scanner File Parser W : Type}
    (E : Environment Compiler Rules File Parser W) (c : Compiled Rules Scanner)
    (target : ScanTarget) (filenameNS : bool) (dir : string) (w : W)
    (f : File) (w0 : W) (names : list string) (w1 : W) :
  rules c = None ->
  os_Open E dir w = (inl f, w0) ->
  File_Readdirnames E f w0 = (names, None, w1) ->
  let kept :=
    List.filter (fun name =>
      strings_EqualFold E (filepath.Ext name) ".yar"
      || strings_EqualFold E (filepath.Ext name) ".yara") names in
  (kept = [] ->
     CompileDir E c target filenameNS dir w
     = (Some (ErrorsNew "no yara files"), c, File_Close E f w1))
  /\ (kept <> [] ->
      let r := CompileFiles E c target filenameNS (map (filepath.Join dir) kept) w1 in
      CompileDir E c target filenameNS dir w = (r.1.1, r.1.2, File_Close E f r.2)).
Proof.
  intros Hr Ho Hn kept. unfold CompileDir.
  rewrite Hr, Ho, Hn, ruleFilePaths_filter. fold kept. split.
  - by intros ->.
  - intros Hk. destruct kept as [|k kept']; [done|]. simpl.
    by destruct (CompileFiles _ _ _ _ _ _) as [[r c'] w'].
Qed.

(** ** Destroy *)

(** X18. Destroy releases the scanner, then the rules, each once, and keeps
    the selector; afterwards the instance holds neither, a second
    Destroy does nothing, and CompileStrings is no longer refused as
    already compiled. *)
Theorem Destroy_releases_once {Compiler Rules Scanner File Parser W : Type}
    (S : gora_scanner.Engine Rules Scanner W) (c : Compiled Rules Scanner) (w : W) :
  let c' := (gora_scanner.Destroy S c w).1 in
  let w' := (gora_scanner.Destroy S c w).2 in
  rules c' = None /\ scanner c' = None /\ gora.vars c' = gora.vars c
  /\ w' = match rules c with
          | Some r => gora_scanner.Rules_Destroy S r
          | None => fun w => w
          end (match scanner c with
               | Some s => gora_scanner.Scanner_Destroy S s w
               | None => w
               end)
  /\ gora_scanner.Destroy S c' w' = (c', w')
  /\ (forall (E : Environment Compiler Rules File Parser W) target ruleNs w0,
        (CompileStrings E c' target ruleNs w0).1.1 <> Some ErrAlreadyCompiled).
Proof.
  intros c' w'. subst c' w'. unfold gora_scanner.Destroy.
  destruct c as [v [r|] [s|]]; simpl; repeat split; try done;
    intros; by apply CompileStrings_uncompiled.
Qed.

(** ** Compile operations: what they acquire they release *)

Section Resources.
Context {Compiler Rules Scanner File Parser W : Type}.
Context (E : Environment Compiler Rules File Parser W).
Local Abbreviation recE := (resources.recEnvironment E).
Local Abbreviation log := (list (resources.event Compiler File)).
Implicit Types (c : Compiled Rules Scanner) (wl : W * log) (target : ScanTarget).

Lemma defineDefaultValue_keeps_log vid compiler wl :
  (variables.defineDefaultValue (D := compilerDefiner recE) vid compiler wl).2.2 = wl.2.
Proof.
  unfold defineDefaultValue, DefineVariable, compilerDefiner. simpl.
  unfold resources.keep.
  repeat case_match; simplify_eq; done.
Qed.

Lemma DefineCompilerVariables_keeps_log l compiler : forall wl,
  (DefineCompilerVariables_loop (D := compilerDefiner recE) l compiler wl).2.2 = wl.2.
Proof.
  induction l as [|vid l IH]; intros wl; [done|]. cbn [DefineCompilerVariables_loop].
  pose proof (defineDefaultValue_keeps_log vid compiler wl) as Hd.
  destruct (defineDefaultValue vid compiler wl) as [[e|] wl1]; [done|].
  rewrite IH. exact Hd.
Qed.

Lemma parseStrings_keeps_log ruleNs : forall parser fb wl,
  (parseStrings recE ruleNs parser fb wl).2.2 = wl.2.
Proof.
  induction ruleNs as [|rule ruleNs IH]; intros parser fb wl; [done|].
  cbn [parseStrings]. simpl. unfold resources.keep.
  destruct (ParseFromReader E parser (strings_NewReader (Rule rule)) wl.1)
    as [[[e|] p1] w1]; [done|]. by rewrite IH.
Qed.

Lemma addStrings_keeps_log ruleNs compiler : forall wl,
  (addStrings recE ruleNs compiler wl).2.2 = wl.2.
Proof.
  induction ruleNs as [|rule ruleNs IH]; intros wl; [done|].
  cbn [addStrings]. simpl. unfold resources.keep.
  destruct (Compiler_AddString E compiler (Rule rule) (Namespace rule) wl.1)
    as [[e|] w1]; [done|]. by rewrite IH.
Qed.

Lemma addFiles_keeps_log files compiler filenameNS : forall wl,
  (addFiles recE files compiler filenameNS wl).2.2 = wl.2.
Proof.
  induction files as [|file files IH]; intros wl; [done|].
  cbn [addFiles]. simpl. unfold resources.keep.
  destruct (Compiler_AddFile E compiler file _ wl.1) as [[e|] w1]; [done|].
  by rewrite IH.
Qed.

Lemma compileFiles_keeps_log compiler files filenameNS wl :
  (compileFiles recE compiler files filenameNS wl).2.2 = wl.2.
Proof.
  unfold compileFiles.
  pose proof (addFiles_keeps_log files compiler filenameNS wl) as Ha.
  destruct (addFiles recE files compiler filenameNS wl) as [[e|] wl1]; [done|].
  simpl. unfold resources.keep.
  destruct (Compiler_GetRules E compiler wl1.1) as [[r [e|]] w2]; done.
Qed.

Lemma closeFiles_log files : forall wl,
  (closeFiles recE files wl).2 = (wl.2 ++ map resources.EvClose files)%list.
Proof.
  induction files as [|file files IH]; intros wl; simpl; [by rewrite app_nil_r|].
  rewrite IH. simpl. by rewrite <- app_assoc.
Qed.

Lemma opened_app (a b : log) :
  resources.opened (a ++ b) = (resources.opened a ++ resources.opened b)%list.
Proof. apply flat_map_app. Qed.

Lemma closed_app (a b : log) :
  resources.closed (a ++ b) = (resources.closed a ++ resources.closed b)%list.
Proof. apply flat_map_app. Qed.

Lemma created_app (a b : log) :
  resources.created (a ++ b) = (resources.created a ++ resources.created b)%list.
Proof. apply flat_map_app. Qed.

Lemma destroyed_app (a b : log) :
  resources.destroyed (a ++ b) = (resources.destroyed a ++ resources.destroyed b)%list.
Proof. apply flat_map_app. Qed.

Lemma closes_log (files : list File) :
  resources.opened (map resources.EvClose files : log) = []
  /\ resources.closed (map resources.EvClose files : log) = files
  /\ resources.created (map resources.EvClose files : log) = []
  /\ resources.destroyed (map resources.EvClose files : log) = [].
Proof.
  induction files as [|f files (H1 & H2 & H3 & H4)]; [done|]. simpl.
  rewrite H2. done.
Qed.

(** The loop over the paths: each file opened is closed at once, or
    kept in [files] for the deferred function. *)
Lemma openFiles_files_only paths : forall parser fb files wl r p fb' files' wl',
  openFiles recE paths parser fb files wl = (r, p, fb', files', wl') ->
  exists evs new, wl'.2 = (wl.2 ++ evs)%list /\ files' = (files ++ new)%list
    /\ resources.files_only evs new.
Proof.
  induction paths as [|path paths IH]; intros parser fb files wl r p fb' files' wl' Hrun.
  { injection Hrun as <- <- <- <- <-. exists [], []. by rewrite !app_nil_r. }
  cbn [openFiles] in Hrun. simpl in Hrun. unfold resources.keep in Hrun.
  destruct (os_Open E path wl.1) as [[f|e] w1].
  2:{ injection Hrun as <- <- <- <- <-. exists [], []. by rewrite !app_nil_r. }
  simpl in Hrun.
  destruct (File_Stat E f w1) as [[info|e] w2]; simpl in Hrun.
  2:{ injection Hrun as <- <- <- <- <-.
      exists [resources.EvOpen f; resources.EvClose f], [].
      rewrite app_nil_r, <- app_assoc. done. }
  destruct (negb (IsRegular (Mode info))).
  { apply IH in Hrun as (evs & new & Hlog & -> & Hc & Hd & Hp). simpl in Hlog.
    exists (resources.EvOpen f :: resources.EvClose f :: evs), new.
    split; [by rewrite Hlog, <- !app_assoc|]. split; [done|].
    split; [done|]. split; [done|]. simpl. by rewrite Hp. }
  destruct (ParseFromReader E parser (file_Reader f) w2) as [[[e|] p1] w3];
    simpl in Hrun.
  { injection Hrun as <- <- <- <- <-. exists [resources.EvOpen f], [f]. done. }
  apply IH in Hrun as (evs & new & Hlog & -> & Hc & Hd & Hp). simpl in Hlog.
  exists (resources.EvOpen f :: evs), (f :: new).
  split; [by rewrite Hlog, <- !app_assoc|].
  split; [by rewrite <- app_assoc|].
  split; [done|]. split; [done|]. simpl. rewrite Hp. apply Permutation_middle.
Qed.

Lemma released_nil : resources.released ([] : log).
Proof. repeat split; simpl; [done|lia]. Qed.

Lemma released_open_close (f : File) :
  resources.released ([resources.EvOpen f; resources.EvClose f] : log).
Proof. repeat split; simpl; [done|lia]. Qed.

Lemma CompileFiles_body_files_only c target filenameNS paths compiler wl r c' files wl' :
  CompileFiles_body recE c target filenameNS paths compiler wl = (r, c', files, wl') ->
  exists evs, wl'.2 = (wl.2 ++ evs)%list /\ resources.files_only evs files.
Proof.
  unfold CompileFiles_body.
  destruct (openFiles recE paths (Parser_new recE) false [] wl)
    as [[[[r0 parser] fb] files0] wl1] eqn:Ho.
  apply openFiles_files_only in Ho as (evs & new & Hlog & Hfiles & Hfo).
  simpl in Hfiles. subst files0. intros Hrun. exists evs.
  destruct r0 as [e|]; [by injection Hrun as <- <- <- <-|].
  destruct (initVariables c target _) as [[e|] c1]; [by injection Hrun as <- <- <- <-|].
  pose proof (DefineCompilerVariables_keeps_log (list_ (gora.vars c1)) compiler wl1) as Hd.
  unfold variables.DefineCompilerVariables in Hrun.
  destruct (DefineCompilerVariables_loop _ compiler wl1) as [[e|] wl2];
    [injection Hrun as <- <- <- <-; simpl in Hd; by rewrite Hd|].
  pose proof (compileFiles_keeps_log compiler new filenameNS wl2) as Hc.
  destruct (compileFiles recE compiler new filenameNS wl2) as [[r1 e1] wl3].
  injection Hrun as <- <- <- <-. simpl in Hd, Hc. by rewrite Hc, Hd.
Qed.

Lemma CompileFiles_released c target filenameNS paths wl :
  exists evs, (CompileFiles recE c target filenameNS paths wl).2.2 = (wl.2 ++ evs)%list
    /\ resources.released evs.
Proof.
  unfold CompileFiles. destruct (rules c).
  { exists []. split; [by rewrite app_nil_r|apply released_nil]. }
  simpl. destruct (yara_NewCompiler E wl.1) as [[compiler|e] w0].
  2:{ exists []. split; [by rewrite app_nil_r|apply released_nil]. }
  destruct (CompileFiles_body recE c target filenameNS paths compiler _)
    as [[[r c'] files] wl'] eqn:Hb.
  apply CompileFiles_body_files_only in Hb as (evs & Hlog & Hc & Hd & Hp).
  simpl in Hlog |- *. rewrite closeFiles_log, Hlog.
  exists (resources.EvNewCompiler compiler :: evs
          ++ map resources.EvClose files ++ [resources.EvDestroy compiler])%list.
  split; [by rewrite <- !app_assoc|].
  destruct (closes_log files) as (H1 & H2 & H3 & H4).
  unfold resources.released. simpl.
  rewrite !opened_app, !closed_app, !created_app, !destroyed_app, H1, H2, H3, H4, Hc, Hd.
  simpl. rewrite !app_nil_r. done.
Qed.

Lemma CompileStrings_released c target ruleNs wl :
  exists evs, (CompileStrings recE c target ruleNs wl).2.2 = (wl.2 ++ evs)%list
    /\ resources.released evs.
Proof.
  unfold CompileStrings. destruct (rules c).
  { exists []. split; [by rewrite app_nil_r|apply released_nil]. }
  simpl. destruct (yara_NewCompiler E wl.1) as [[compiler|e] w0].
  2:{ exists []. split; [by rewrite app_nil_r|apply released_nil]. }
  exists [resources.EvNewCompiler compiler; resources.EvDestroy compiler].
  split; [|done].
  set (wl0 := (w0, (wl.2 ++ [resources.EvNewCompiler compiler])%list)).
  assert (Hb : (CompileStrings_body recE c target ruleNs compiler wl0).2.2 = wl0.2).
  { unfold CompileStrings_body.
    pose proof (parseStrings_keeps_log ruleNs (Parser_new recE) false wl0) as Hp.
    destruct (parseStrings recE ruleNs (Parser_new recE) false wl0)
      as [[e|[parser fb]] wl1]; [done|].
    destruct (initVariables c target _) as [[e|] c1]; [done|].
    pose proof (DefineCompilerVariables_keeps_log (list_ (gora.vars c1)) compiler wl1)
      as Hd.
    unfold variables.DefineCompilerVariables.
    destruct (DefineCompilerVariables_loop _ compiler wl1) as [[e|] wl2];
      [simpl in *; congruence|].
    pose proof (addStrings_keeps_log ruleNs compiler wl2) as Ha.
    destruct (addStrings recE ruleNs compiler wl2) as [[e|] wl3];
      [simpl in *; congruence|].
    simpl. unfold resources.keep.
    destruct (Compiler_GetRules E compiler wl3.1) as [[r [e|]] w4];
      simpl in *; congruence. }
  destruct (CompileStrings_body recE c target ruleNs compiler wl0) as [[r c'] wl'].
  simpl in Hb |- *. rewrite Hb. subst wl0. simpl. by rewrite <- app_assoc.
Qed.

Lemma CompileDir_released c target filenameNS dir wl :
  exists evs, (CompileDir recE c target filenameNS dir wl).2.2 = (wl.2 ++ evs)%list
    /\ resources.released evs.
Proof.
  unfold CompileDir. destruct (rules c).
  { exists []. split; [by rewrite app_nil_r|apply released_nil]. }
  simpl. destruct (os_Open E dir wl.1) as [[f|e] w0].
  2:{ exists []. split; [by rewrite app_nil_r|apply released_nil]. }
  unfold resources.keep. simpl.
  destruct (File_Readdirnames E f w0) as [[names [e|]] w1].
  { exists [resources.EvOpen f; resources.EvClose f]. simpl.
    split; [by rewrite <- app_assoc|apply released_open_close]. }
  destruct (length (ruleFilePaths recE dir names) =? 0)%nat.
  { exists [resources.EvOpen f; resources.EvClose f]. simpl.
    split; [by rewrite <- app_assoc|apply released_open_close]. }
  destruct (CompileFiles_released c target filenameNS (ruleFilePaths recE dir names)
              (w1, (wl.2 ++ [resources.EvOpen f])%list)) as (evs & Hlog & Hp & Hc & Hn).
  destruct (CompileFiles recE c target filenameNS _ _) as [[r c'] wl'].
  simpl in Hlog |- *. rewrite Hlog.
  exists (resources.EvOpen f :: evs ++ [resources.EvClose f])%list.
  split; [by rewrite <- !app_assoc|].
  unfold resources.released. simpl.
  rewrite !opened_app, !closed_app, !created_app, !destroyed_app. simpl.
  rewrite !app_nil_r. split; [|done].
  rewrite Hp. apply Permutation_cons_append.
Qed.

Lemma CompileFileOrDir_released c target filenameNS path wl :
  exists evs, (CompileFileOrDir recE c target filenameNS path wl).2.2 = (wl.2 ++ evs)%list
    /\ resources.released evs.
Proof.
  unfold CompileFileOrDir. destruct (rules c).
  { exists []. split; [by rewrite app_nil_r|apply released_nil]. }
  simpl. unfold resources.keep.
  destruct (os_Stat E path wl.1) as [[info|e] w0].
  2:{ exists []. split; [by rewrite app_nil_r|apply released_nil]. }
  destruct (IsDir info); [apply (CompileDir_released c target filenameNS path (w0, wl.2))|].
  destruct (IsRegular (Mode info));
    [apply (CompileFiles_released c target filenameNS [path] (w0, wl.2))|].
  exists []. split; [by rewrite app_nil_r|apply released_nil].
Qed.

End Resources.

(** Recording changes nothing: a compile operation run in the recording
    environment returns what it returns in the environment itself. *)
Section Erasure.
Context {Compiler Rules Scanner File Parser W : Type}.
Context (E : Environment Compiler Rules File Parser W).
Local Abbreviation recE := (resources.recEnvironment E).
Local Abbreviation log := (list (resources.event Compiler File)).
Implicit Types (c : Compiled Rules Scanner) (wl : W * log) (target : ScanTarget).

Lemma defineDefaultValue_erase vid compiler wl :
  resources.erase (variables.defineDefaultValue (D := compilerDefiner recE) vid compiler wl)
  = variables.defineDefaultValue (D := compilerDefiner E) vid compiler wl.1.
Proof.
  unfold defineDefaultValue, DefineVariable, compilerDefiner, resources.erase. simpl.
  unfold resources.keep.
  repeat case_match; simplify_eq; done.
Qed.

Lemma DefineCompilerVariables_erase l compiler : forall wl,
  resources.erase (DefineCompilerVariables_loop (D := compilerDefiner recE) l compiler wl)
  = DefineCompilerVariables_loop (D := compilerDefiner E) l compiler wl.1.
Proof.
  induction l as [|vid l IH]; intros wl; [done|]. cbn [DefineCompilerVariables_loop].
  rewrite <- (defineDefaultValue_erase vid compiler wl).
  destruct (defineDefaultValue vid compiler wl) as [[e|] wl1]; [done|].
  unfold resources.erase at 2. simpl. apply IH.
Qed.

Lemma parseStrings_erase ruleNs : forall parser fb wl,
  resources.erase (parseStrings recE ruleNs parser fb wl)
  = parseStrings E ruleNs parser fb wl.1.
Proof.
  induction ruleNs as [|rule ruleNs IH]; intros parser fb wl; [done|].
  cbn [parseStrings]. simpl. unfold resources.keep.
  destruct (ParseFromReader E parser (strings_NewReader (Rule rule)) wl.1)
    as [[[e|] p1] w1]; [done|]. apply IH.
Qed.

Lemma addStrings_erase ruleNs compiler : forall wl,
  resources.erase (addStrings recE ruleNs compiler wl)
  = addStrings E ruleNs compiler wl.1.
Proof.
  induction ruleNs as [|rule ruleNs IH]; intros wl; [done|].
  cbn [addStrings]. simpl. unfold resources.keep.
  destruct (Compiler_AddString E compiler (Rule rule) (Namespace rule) wl.1)
    as [[e|] w1]; [done|]. apply IH.
Qed.

Lemma addFiles_erase files compiler filenameNS : forall wl,
  resources.erase (addFiles recE files compiler filenameNS wl)
  = addFiles E files compiler filenameNS wl.1.
Proof.
  induction files as [|file files IH]; intros wl; [done|].
  cbn [addFiles]. simpl. unfold resources.keep.
  destruct (Compiler_AddFile E compiler file _ wl.1) as [[e|] w1]; [done|]. apply IH.
Qed.

Lemma compileFiles_erase compiler files filenameNS wl :
  resources.erase (compileFiles recE compiler files filenameNS wl)
  = compileFiles E compiler files filenameNS wl.1.
Proof.
  unfold compileFiles. rewrite <- (addFiles_erase files compiler filenameNS wl).
  destruct (addFiles recE files compiler filenameNS wl) as [[e|] wl1]; [done|].
  simpl. unfold resources.keep.
  destruct (Compiler_GetRules E compiler wl1.1) as [[r [e|]] w2]; done.
Qed.

Lemma closeFiles_erase files : forall wl,
  (closeFiles recE files wl).1 = closeFiles E files wl.1.
Proof. induction files as [|file files IH]; intros wl; [done|]. simpl. by rewrite IH. Qed.

Lemma openFiles_erase paths : forall parser fb files wl,
  resources.erase (openFiles recE paths parser fb files wl)
  = openFiles E paths parser fb files wl.1.
Proof.
  induction paths as [|path paths IH]; intros parser fb files wl; [done|].
  cbn [openFiles]. simpl. unfold resources.keep.
  destruct (os_Open E path wl.1) as [[f|e] w1]; [|done]. simpl.
  destruct (File_Stat E f w1) as [[info|e] w2]; [|done]. simpl.
  destruct (negb (IsRegular (Mode info))); [apply IH|].
  destruct (ParseFromReader E parser (file_Reader f) w2) as [[[e|] p1] w3]; [done|].
  apply IH.
Qed.

Lemma CompileFiles_erase c target filenameNS paths wl :
  resources.erase (CompileFiles recE c target filenameNS paths wl)
  = CompileFiles E c target filenameNS paths wl.1.
Proof.
  unfold CompileFiles. destruct (rules c); [done|]. simpl.
  destruct (yara_NewCompiler E wl.1) as [[compiler|e] w0]; [|done].
  set (wl0 := (w0, (wl.2 ++ [resources.EvNewCompiler compiler])%list)).
  change w0 with wl0.1. clearbody wl0.
  unfold CompileFiles_body.
  rewrite <- (openFiles_erase paths (Parser_new E) false [] wl0).
  change (Parser_new recE) with (Parser_new E).
  destruct (openFiles recE paths (Parser_new E) false [] wl0)
    as [[[[[e|] parser] fb] files] wl1];
    [unfold resources.erase; simpl; by rewrite closeFiles_erase|].
  unfold resources.erase at 2. simpl.
  change (Parser_Variables recE parser) with (Parser_Variables E parser).
  destruct (initVariables c target _) as [[e|] c1];
    [unfold resources.erase; simpl; by rewrite closeFiles_erase|].
  unfold variables.DefineCompilerVariables.
  rewrite <- (DefineCompilerVariables_erase (list_ (gora.vars c1)) compiler wl1).
  destruct (DefineCompilerVariables_loop _ compiler wl1) as [[e|] wl2];
    [unfold resources.erase; simpl; by rewrite closeFiles_erase|].
  unfold resources.erase at 2. simpl.
  rewrite <- (compileFiles_erase compiler files filenameNS wl2).
  destruct (compileFiles recE compiler files filenameNS wl2) as [[r1 e1] wl3].
  unfold resources.erase. simpl. by rewrite closeFiles_erase.
Qed.

Lemma CompileStrings_erase c target ruleNs wl :
  resources.erase (CompileStrings recE c target ruleNs wl)
  = CompileStrings E c target ruleNs wl.1.
Proof.
  unfold CompileStrings. destruct (rules c); [done|]. simpl.
  destruct (yara_NewCompiler E wl.1) as [[compiler|e] w0]; [|done].
  set (wl0 := (w0, (wl.2 ++ [resources.EvNewCompiler compiler])%list)).
  change w0 with wl0.1. clearbody wl0.
  unfold CompileStrings_body.
  rewrite <- (parseStrings_erase ruleNs (Parser_new E) false wl0).
  change (Parser_new recE) with (Parser_new E).
  destruct (parseStrings recE ruleNs (Parser_new E) false wl0)
    as [[e|[parser fb]] wl1]; [done|].
  unfold resources.erase at 2. simpl.
  change (Parser_Variables recE parser) with (Parser_Variables E parser).
  destruct (initVariables c target _) as [[e|] c1]; [done|].
  unfold variables.DefineCompilerVariables.
  rewrite <- (DefineCompilerVariables_erase (list_ (gora.vars c1)) compiler wl1).
  destruct (DefineCompilerVariables_loop _ compiler wl1) as [[e|] wl2]; [done|].
  unfold resources.erase at 2. simpl.
  rewrite <- (addStrings_erase ruleNs compiler wl2).
  destruct (addStrings recE ruleNs compiler wl2) as [[e|] wl3]; [done|].
  unfold resources.erase at 2. simpl. unfold resources.keep.
  destruct (Compiler_GetRules E compiler wl3.1) as [[r [e|]] w4]; done.
Qed.

Lemma ruleFilePaths_erase dir names :
  ruleFilePaths recE dir names = ruleFilePaths E dir names.
Proof. induction names as [|name names IH]; [done|]. simpl. by rewrite IH. Qed.

Lemma CompileDir_erase c target filenameNS dir wl :
  resources.erase (CompileDir recE c target filenameNS dir wl)
  = CompileDir E c target filenameNS dir wl.1.
Proof.
  unfold CompileDir. destruct (rules c); [done|]. simpl.
  destruct (os_Open E dir wl.1) as [[f|e] w0]; [|done].
  unfold resources.keep. simpl.
  destruct (File_Readdirnames E f w0) as [[names [e|]] w1]; [done|].
  rewrite ruleFilePaths_erase.
  destruct (length (ruleFilePaths E dir names) =? 0)%nat; [done|].
  pose proof (CompileFiles_erase c target filenameNS (ruleFilePaths E dir names)
                (w1, (wl.2 ++ [resources.EvOpen f])%list)) as H.
  cbn [fst] in H. rewrite <- H.
  by destruct (CompileFiles recE c target filenameNS _ _) as [[r c'] wl'].
Qed.

Lemma CompileFileOrDir_erase c target filenameNS path wl :
  resources.erase (CompileFileOrDir recE c target filenameNS path wl)
  = CompileFileOrDir E c target filenameNS path wl.1.
Proof.
  unfold CompileFileOrDir. destruct (rules c); [done|]. simpl. unfold resources.keep.
  destruct (os_Stat E path wl.1) as [[info|e] w0]; [|done].
  destruct (IsDir info); [apply (CompileDir_erase c target filenameNS path (w0, wl.2))|].
  destruct (IsRegular (Mode info));
    [apply (CompileFiles_erase c target filenameNS [path] (w0, wl.2))|done].
Qed.

End Erasure.

(** X19. Whatever a compile operation returns, it has by then closed every
    file it opened, each once, and destroyed the compiler it created:
    the files that are no regular files and those whose Stat fails are
    closed at once, the others by the deferred function, and so is the
    directory of CompileDir.  The log is that of the recording
    environment, which returns what the environment itself returns. *)
Theorem compile_releases_what_it_acquires
    {Compiler Rules Scanner File Parser W : Type}
    (E : Environment Compiler Rules File Parser W) (c : Compiled Rules Scanner)
    (target : ScanTarget) (filenameNS : bool) (w : W) :
  (forall ruleNs,
     let run := CompileStrings (resources.recEnvironment E) c target ruleNs (w, []) in
     resources.erase run = CompileStrings E c target ruleNs w
     /\ resources.released run.2.2)
  /\ (forall paths,
        let run :=
          CompileFiles (resources.recEnvironment E) c target filenameNS paths (w, []) in
        resources.erase run = CompileFiles E c target filenameNS paths w
        /\ resources.released run.2.2)
  /\ (forall dir,
        let run :=
          CompileDir (resources.recEnvironment E) c target filenameNS dir (w, []) in
        resources.erase run = CompileDir E c target filenameNS dir w
        /\ resources.released run.2.2)
  /\ (forall path,
        let run :=
          CompileFileOrDir (resources.recEnvironment E) c target filenameNS path (w, []) in
        resources.erase run = CompileFileOrDir E c target filenameNS path w
        /\ resources.released run.2.2).
Proof.
  split; [|split; [|split]].
  - intros ruleNs run. split; [apply (CompileStrings_erase E c target ruleNs (w, []))|].
    subst run.
    destruct (CompileStrings_released E c target ruleNs (w, [])) as (evs & -> & H). done.
  - intros paths run.
    split; [apply (CompileFiles_erase E c target filenameNS paths (w, []))|]. subst run.
    destruct (CompileFiles_released E c target filenameNS paths (w, [])) as (evs & -> & H).
    done.
  - intros dir run.
    split; [apply (CompileDir_erase E c target filenameNS dir (w, []))|]. subst run.
    destruct (CompileDir_released E c target filenameNS dir (w, [])) as (evs & -> & H).
    done.
  - intros path run.
    split; [apply (CompileFileOrDir_erase E c target filenameNS path (w, []))|]. subst run.
    destruct (CompileFileOrDir_released E c target filenameNS path (w, []))
      as (evs & -> & H). done.
Qed.

(** ** Copies of the selector *)

Section Slices.
Implicit Types (h : gmap positive (list VariableType)) (s : slices.slice).

Lemma elems_length h s : slices.allocated h s -> length (slices.elems h s) = slices.len s.
Proof.
  intros (data & Hd & Hlen). unfold slices.elems, slices.backing. rewrite Hd. simpl.
  rewrite length_take. lia.
Qed.

Lemma Variables_copy h (vr : slices.Variables_) :
  slices.allocated h (slices.list_ vr) ->
  let list := (slices.Variables vr h).1 in
  let h' := (slices.Variables vr h).2 in
  slices.array list <> slices.array (slices.list_ vr)
  /\ slices.len list = slices.len (slices.list_ vr)
  /\ h' !! slices.array list = Some (slices.elems h (slices.list_ vr))
  /\ (forall a, a <> slices.array list -> h' !! a = h !! a).
Proof.
  intros Hal. pose proof (elems_length _ _ Hal) as Hlen.
  destruct Hal as (data & Hd & Hle).
  unfold slices.Variables, slices.make, slices.copy. simpl.
  set (a := fresh (dom h)).
  assert (Ha : a <> slices.array (slices.list_ vr)).
  { intros Heq. apply (is_fresh (dom h)). fold a. rewrite Heq.
    apply elem_of_dom. by eexists. }
  split; [done|]. split; [done|]. split.
  - rewrite lookup_insert_eq. f_equal.
    rewrite Nat.min_id.
    assert (He : slices.elems (<[a:=replicate (slices.len (slices.list_ vr)) 0]> h)
                   (slices.list_ vr) = slices.elems h (slices.list_ vr)).
    { unfold slices.elems, slices.backing. by rewrite lookup_insert_ne. }
    rewrite He. unfold slices.backing. simpl. rewrite lookup_insert_eq. simpl.
    rewrite take_ge by lia. rewrite drop_ge by (rewrite length_replicate; lia).
    by rewrite app_nil_r.
  - intros b Hb. by rewrite !lookup_insert_ne.
Qed.

End Slices.

(** X20. Copy gives a selector with the same identifiers in an array of its
    own: the original is untouched, and afterwards a store into either
    one leaves the identifiers of the other as they were. *)
Theorem Copy_is_independent (h : gmap positive (list VariableType))
    (vr : slices.Variables_) :
  slices.allocated h (slices.list_ vr) ->
  let cp := (slices.Copy vr h).1 in
  let h' := (slices.Copy vr h).2 in
  slices.elems h' (slices.list_ cp) = slices.elems h (slices.list_ vr)
  /\ slices.elems h' (slices.list_ vr) = slices.elems h (slices.list_ vr)
  /\ (forall i v h'', slices.store (slices.list_ cp) i v h' = Some h'' ->
        slices.elems h'' (slices.list_ vr) = slices.elems h (slices.list_ vr))
  /\ (forall i v h'', slices.store (slices.list_ vr) i v h' = Some h'' ->
        slices.elems h'' (slices.list_ cp) = slices.elems h (slices.list_ vr)).
Proof.
  intros Hal cp h'.
  destruct (Variables_copy h vr Hal) as (Hne & Hlen & Hcp & Hrest).
  pose proof (elems_length _ _ Hal) as Hel.
  assert (Hcp' : slices.list_ cp = (slices.Variables vr h).1).
  { subst cp. unfold slices.Copy. by destruct (slices.Variables vr h). }
  assert (Hh' : h' = (slices.Variables vr h).2).
  { subst h'. unfold slices.Copy. by destruct (slices.Variables vr h). }
  rewrite Hcp', Hh'. clear Hcp' Hh' cp h'.
  set (list := (slices.Variables vr h).1) in *.
  set (h' := (slices.Variables vr h).2) in *.
  assert (E1 : slices.elems h' list = slices.elems h (slices.list_ vr)).
  { unfold slices.elems at 1, slices.backing. rewrite Hcp, Hlen. simpl.
    apply take_ge. lia. }
  assert (E2 : slices.elems h' (slices.list_ vr) = slices.elems h (slices.list_ vr)).
  { unfold slices.elems, slices.backing. by rewrite Hrest. }
  split; [exact E1|]. split; [exact E2|]. split.
  - intros i v h'' Hst. unfold slices.store in Hst.
    destruct (i <? slices.len list)%nat; [|done]. injection Hst as <-.
    rewrite <- E2. unfold slices.elems, slices.backing.
    by rewrite lookup_insert_ne.
  - intros i v h'' Hst. unfold slices.store in Hst.
    destruct (i <? slices.len (slices.list_ vr))%nat; [|done]. injection Hst as <-.
    rewrite <- E1. unfold slices.elems, slices.backing.
    by rewrite lookup_insert_ne.
Qed.

Lemma Copy_is_independent_witness :
  slices.elems (slices.Copy slices.sample_selector slices.sample_heap).2
    (slices.list_ (slices.Copy slices.sample_selector slices.sample_heap).1)
  = slices.elems slices.sample_heap (slices.list_ slices.sample_selector).
Proof.
  refine (proj1 (Copy_is_independent slices.sample_heap slices.sample_selector _)).
  exists [1; 18; 5]. split; [reflexivity|]. simpl. lia.
Defined.

(** ** More runs on concrete instances *)

Lemma file_readonly_write_bits_witness :
  exists readonly,
    Value demo.externals VarFileReadonly samples.readonly_scan
      = Ret (Some (VBool readonly), None)
    /\ (readonly = true <-> Z.land (2 ^ 31 + 365) 146 = 0%Z).
Proof.
  exact (file_readonly_write_bits demo.externals samples.readonly_scan _ eq_refl).
Defined.

Lemma CompileDir_rule_files_witness :
  CompileDir (samples.listing_environment ["notes.txt"; "README"])
    (NewCompiled : Compiled unit unit) ScanFile false "rules" []
  = (Some (ErrorsNew "no yara files"), NewCompiled, []).
Proof.
  exact (proj1 (CompileDir_rule_files (samples.listing_environment ["notes.txt"; "README"])
                  (NewCompiled : Compiled unit unit) ScanFile false "rules" []
                  "rules" [] ["notes.txt"; "README"] [] eq_refl eq_refl eq_refl)
           eq_refl).
Defined.

